(** * pyref.py: a shallow embedding of the single-key walkthrough script

    The script [src/py.py] is a linear sequence of demonstration steps that
    talk to a terminal (raw single-key reads and line input), to two scratch
    files under /tmp and to the shell.  The embedding below threads an
    explicit [world] through a small exception monad; every Python function
    of the script is a definition of the same name.

    Characters are code points below 256 (Rocq's [ascii]); the string
    methods of Python that the script calls are defined on that range. *)

From Stdlib Require Import ZArith Ascii String Lia DecimalString.
From stdpp Require Import base gmap strings list.

Local Open Scope Z_scope.

#[local] Arguments String.append !s1 s2 : simpl nomatch.

(** ** Python string methods used by the script *)

Module PyStr.

Definition ord (c : ascii) : Z := Z.of_N (N_of_ascii c).

Definition LF : ascii := ascii_of_nat 10.
Definition CR : ascii := ascii_of_nat 13.
Definition ESC : ascii := ascii_of_nat 27.
Definition CTRL_C : ascii := ascii_of_nat 3.

Definition nl : string := String LF "".

(** [str.isspace] on one character: TAB..CR, FS..US, space, NEL, NBSP. *)
Definition isspace (c : ascii) : bool :=
  let n := ord c in
  ((9 <=? n) && (n <=? 13)) || ((28 <=? n) && (n <=? 32))
  || (n =? 133) || (n =? 160).

(** The line boundaries of [str.splitlines]. *)
Definition is_linebreak (c : ascii) : bool :=
  let n := ord c in
  ((10 <=? n) && (n <=? 13)) || ((28 <=? n) && (n <=? 30)) || (n =? 133).

Definition is_ascii_digit (c : ascii) : bool :=
  let n := ord c in (48 <=? n) && (n <=? 57).

(** [str.isdigit] on one character: the decimal digits and the three
    superscript digits of Latin-1, which [int] does not accept. *)
Definition isdigit_char (c : ascii) : bool :=
  let n := ord c in
  is_ascii_digit c || (n =? 178) || (n =? 179) || (n =? 185).

(** [s.isdigit()]: every character is a digit and there is at least one. *)
Fixpoint all_digits (s : string) : bool :=
  match s with
  | EmptyString => true
  | String c s' => isdigit_char c && all_digits s'
  end.

Definition isdigit (s : string) : bool :=
  match s with
  | EmptyString => false
  | _ => all_digits s
  end.

Definition lower_char (c : ascii) : ascii :=
  let n := ord c in
  if ((65 <=? n) && (n <=? 90)) || ((192 <=? n) && (n <=? 214))
     || ((216 <=? n) && (n <=? 222))
  then ascii_of_N (Z.to_N (n + 32)) else c.

Fixpoint lower (s : string) : string :=
  match s with
  | EmptyString => EmptyString
  | String c s' => String (lower_char c) (lower s')
  end.

Fixpoint lstrip (s : string) : string :=
  match s with
  | EmptyString => EmptyString
  | String c s' => if isspace c then lstrip s' else s
  end.

Fixpoint rstrip (s : string) : string :=
  match s with
  | EmptyString => EmptyString
  | String c s' =>
      match rstrip s' with
      | EmptyString => if isspace c then EmptyString else String c EmptyString
      | r => String c r
      end
  end.

Definition strip (s : string) : string := lstrip (rstrip s).

Definition nonempty (s : string) : bool :=
  match s with EmptyString => false | _ => true end.

Fixpoint startswith (s p : string) : bool :=
  match p, s with
  | EmptyString, _ => true
  | String a p', String b s' => Ascii.eqb a b && startswith s' p'
  | String _ _, EmptyString => false
  end.

(** [s.endswith(suf)]: some suffix of [s] is [suf]. *)
Fixpoint endswith (s suf : string) : bool :=
  String.eqb s suf ||
  match s with
  | EmptyString => false
  | String _ s' => endswith s' suf
  end.

(** [sub in s]. *)
Fixpoint contains (sub s : string) : bool :=
  startswith s sub ||
  match s with
  | EmptyString => false
  | String _ s' => contains sub s'
  end.

Fixpoint drop (n : nat) (s : string) : string :=
  match n, s with
  | O, _ => s
  | S n', String _ s' => drop n' s'
  | S _, EmptyString => EmptyString
  end.

(** [s.replace(old, new, 1)] for a non-empty [old]. *)
Fixpoint replace_first (old new s : string) : string :=
  if startswith s old then new +:+ drop (String.length old) s
  else match s with
       | EmptyString => EmptyString
       | String c s' => String c (replace_first old new s')
       end.

(** [s.replace(old, new)] for a non-empty [old]; [skip] counts the
    characters of a match still to be passed over. *)
Fixpoint replace_all_from (skip : nat) (old new s : string) : string :=
  match s with
  | EmptyString => EmptyString
  | String c s' =>
      match skip with
      | S k => replace_all_from k old new s'
      | O => if startswith s old
             then new +:+ replace_all_from (String.length old - 1) old new s'
             else String c (replace_all_from O old new s')
      end
  end.

Definition replace_all : string -> string -> string -> string :=
  replace_all_from O.

(** Put a character in front of the first line of a split text. *)
Definition cons_char (c : ascii) (ls : list string) : list string :=
  match ls with
  | [] => [String c EmptyString]
  | l :: ls' => String c l :: ls'
  end.

(** [str.splitlines]; [prev_cr] says that the previous character was a
    carriage return, whose following line feed belongs to the same
    boundary. *)
Fixpoint splitlines_from (prev_cr : bool) (s : string) : list string :=
  match s with
  | EmptyString => []
  | String c s' =>
      if Ascii.eqb c LF && prev_cr then splitlines_from false s'
      else if is_linebreak c
           then EmptyString :: splitlines_from (Ascii.eqb c CR) s'
           else cons_char c (splitlines_from false s')
  end.

Definition splitlines : string -> list string := splitlines_from false.

(** [sep.join(ls)]. *)
Fixpoint join (sep : string) (ls : list string) : string :=
  match ls with
  | [] => EmptyString
  | [l] => l
  | l :: ls' => l +:+ sep +:+ join sep ls'
  end.

(** [c * n] for a one-character string. *)
Fixpoint repeat_char (c : ascii) (n : nat) : string :=
  match n with
  | O => EmptyString
  | S k => String c (repeat_char c k)
  end.

(** Text-mode reading with universal newlines: CR LF and a lone CR both
    arrive as LF. *)
Fixpoint universal_newlines_from (prev_cr : bool) (s : string) : string :=
  match s with
  | EmptyString => EmptyString
  | String c s' =>
      if Ascii.eqb c CR then String LF (universal_newlines_from true s')
      else if Ascii.eqb c LF && prev_cr then universal_newlines_from false s'
      else String c (universal_newlines_from false s')
  end.

Definition universal_newlines : string -> string :=
  universal_newlines_from false.

(** [int(s)] in base ten: surrounding whitespace, one optional sign, then
    digits that single underscores may separate, no more digits than the
    interpreter's limit.  [None] is ValueError. *)
Fixpoint parse_digits (after_digit : bool) (acc : Z) (s : string) : option Z :=
  match s with
  | EmptyString => if after_digit then Some acc else None
  | String c s' =>
      if is_ascii_digit c then parse_digits true (10 * acc + (ord c - 48)) s'
      else if Ascii.eqb c "_" && after_digit then parse_digits false acc s'
      else None
  end.

(** The whitespace [int] skips around the number: TAB..CR and space, and
    of the characters above 127 those that are spaces (NEL, NBSP).  The
    separators FS..US, which [str.strip] removes, are not among them. *)
Definition int_space (c : ascii) : bool :=
  let n := ord c in
  ((9 <=? n) && (n <=? 13)) || (n =? 32) || (n =? 133) || (n =? 160).

Fixpoint lstrip_by (p : ascii -> bool) (s : string) : string :=
  match s with
  | EmptyString => EmptyString
  | String c s' => if p c then lstrip_by p s' else s
  end.

Fixpoint rstrip_by (p : ascii -> bool) (s : string) : string :=
  match s with
  | EmptyString => EmptyString
  | String c s' =>
      match rstrip_by p s' with
      | EmptyString => if p c then EmptyString else String c EmptyString
      | r => String c r
      end
  end.

(** The number of decimal digits in a text. *)
Fixpoint digit_count (s : string) : Z :=
  match s with
  | EmptyString => 0
  | String c s' => (if is_ascii_digit c then 1 else 0) + digit_count s'
  end.

(** The default of [sys.get_int_max_str_digits()]. *)
Definition INT_MAX_STR_DIGITS : Z := 4300.

Definition int (s : string) : option Z :=
  let t := lstrip_by int_space (rstrip_by int_space s) in
  if INT_MAX_STR_DIGITS <? digit_count t then None
  else match t with
       | String "+" r => parse_digits false 0 r
       | String "-" r => Z.opp <$> parse_digits false 0 r
       | t => parse_digits false 0 t
       end.

Definition str_of_Z (z : Z) : string := NilZero.string_of_int (Z.to_int z).

Definition hex_digit (n : Z) : ascii :=
  if n <? 10 then ascii_of_N (Z.to_N (48 + n)) else ascii_of_N (Z.to_N (87 + n)).

Definition printable (c : ascii) : bool :=
  let n := ord c in
  ((32 <=? n) && (n <=? 126)) || ((161 <=? n) && negb (n =? 173)).

Definition DQUOTE : ascii := ascii_of_nat 34.
Definition SQUOTE : ascii := ascii_of_nat 39.
Definition BACKSLASH : ascii := ascii_of_nat 92.

Fixpoint has_char (c : ascii) (s : string) : bool :=
  match s with
  | EmptyString => false
  | String a s' => Ascii.eqb a c || has_char c s'
  end.

Fixpoint repr_body (q : ascii) (s : string) : string :=
  match s with
  | EmptyString => EmptyString
  | String c s' =>
      let n := ord c in
      (if Ascii.eqb c q || Ascii.eqb c BACKSLASH
       then String BACKSLASH (String c EmptyString)
       else if n =? 9 then String BACKSLASH "t"
       else if n =? 10 then String BACKSLASH "n"
       else if n =? 13 then String BACKSLASH "r"
       else if printable c then String c EmptyString
       else String BACKSLASH
              (String "x" (String (hex_digit (n / 16))
                                  (String (hex_digit (n mod 16)) EmptyString))))
      +:+ repr_body q s'
  end.

(** [repr(s)]: single quotes unless the text has one and no double quote. *)
Definition repr (s : string) : string :=
  let q := if has_char SQUOTE s && negb (has_char DQUOTE s)
           then DQUOTE else SQUOTE in
  String q (repr_body q s +:+ String q EmptyString).

End PyStr.

(** ** The world the script runs in *)

(** The list [termios.tcgetattr] returns: four flag words, two speeds and
    the control characters. *)
Record termios_attr := {
  iflag : Z; oflag : Z; cflag : Z; lflag : Z;
  ispeed : Z; ospeed : Z; cc : list Z
}.

Inductive tc_when := TCSANOW | TCSADRAIN | TCSAFLUSH.

(** What reaches the terminal: text written to standard output, and the
    effect of [os.system] on the clear command. *)
Inductive out_event :=
| Write (s : string)
| ClearScreen.

Inductive exn :=
| KeyboardInterrupt
| EOFError
| ValueError
| FileNotFoundError (path : string)
| CalledProcessError (returncode : Z) (output : string)
| TermiosError.

(** Standard input is a terminal that stays there, so [tcgetattr] and
    [tcsetattr] succeed; [tcsetattr_refused] below is the call on a
    terminal that has hung up.
    [tty_attr] is the input mode in effect and [tty_calls] the calls of
    [tcsetattr] so far, oldest first.  [stdin] holds the characters the
    terminal will deliver, in order.  [fs] maps a path to the text of the
    file there.  [tty_raw] is what [tty.setraw] makes of given settings and
    [shell] the exit status and output of the n-th shell command; both
    belong to the platform, not to the script. *)
Record world := {
  tty_attr : termios_attr;
  tty_calls : list (tc_when * termios_attr);
  stdin : list ascii;
  stdout : list out_event;
  fs : gmap string string;
  GLOBAL_VAR : string;
  HAS_REQUESTS : bool;
  shell_calls : nat;
  tty_raw : termios_attr -> termios_attr;
  shell : nat -> string -> Z * string
}.

Definition set_tty (a : termios_attr) (when : tc_when) (w : world) : world :=
  {| tty_attr := a; tty_calls := tty_calls w ++ [(when, a)];
     stdin := stdin w; stdout := stdout w; fs := fs w;
     GLOBAL_VAR := GLOBAL_VAR w; HAS_REQUESTS := HAS_REQUESTS w;
     shell_calls := shell_calls w; tty_raw := tty_raw w; shell := shell w |}.

Definition set_stdin (cs : list ascii) (w : world) : world :=
  {| tty_attr := tty_attr w; tty_calls := tty_calls w;
     stdin := cs; stdout := stdout w; fs := fs w;
     GLOBAL_VAR := GLOBAL_VAR w; HAS_REQUESTS := HAS_REQUESTS w;
     shell_calls := shell_calls w; tty_raw := tty_raw w; shell := shell w |}.

Definition emit (e : out_event) (w : world) : world :=
  {| tty_attr := tty_attr w; tty_calls := tty_calls w;
     stdin := stdin w; stdout := stdout w ++ [e]; fs := fs w;
     GLOBAL_VAR := GLOBAL_VAR w; HAS_REQUESTS := HAS_REQUESTS w;
     shell_calls := shell_calls w; tty_raw := tty_raw w; shell := shell w |}.

Definition set_fs (m : gmap string string) (w : world) : world :=
  {| tty_attr := tty_attr w; tty_calls := tty_calls w;
     stdin := stdin w; stdout := stdout w; fs := m;
     GLOBAL_VAR := GLOBAL_VAR w; HAS_REQUESTS := HAS_REQUESTS w;
     shell_calls := shell_calls w; tty_raw := tty_raw w; shell := shell w |}.

Definition set_global (v : string) (w : world) : world :=
  {| tty_attr := tty_attr w; tty_calls := tty_calls w;
     stdin := stdin w; stdout := stdout w; fs := fs w;
     GLOBAL_VAR := v; HAS_REQUESTS := HAS_REQUESTS w;
     shell_calls := shell_calls w; tty_raw := tty_raw w; shell := shell w |}.

Definition tick_shell (w : world) : world :=
  {| tty_attr := tty_attr w; tty_calls := tty_calls w;
     stdin := stdin w; stdout := stdout w; fs := fs w;
     GLOBAL_VAR := GLOBAL_VAR w; HAS_REQUESTS := HAS_REQUESTS w;
     shell_calls := S (shell_calls w); tty_raw := tty_raw w; shell := shell w |}.

(** ** A state and exception monad *)

Inductive outcome (A : Type) :=
| Ret (a : A) (w : world)
| Raise (e : exn) (w : world)
| OutOfFuel.
Arguments Ret {A} a w.
Arguments Raise {A} e w.
Arguments OutOfFuel {A}.

Definition M (A : Type) : Type := world -> outcome A.

Definition ret {A} (a : A) : M A := fun w => Ret a w.

Definition raise {A} (e : exn) : M A := fun w => Raise e w.

Definition bind {A B} (m : M A) (k : A -> M B) : M B :=
  fun w => match m w with
           | Ret a w' => k a w'
           | Raise e w' => Raise e w'
           | OutOfFuel => OutOfFuel
           end.

Declare Scope py_scope.
Delimit Scope py_scope with py.
Notation "x <- m ;; k" := (bind m (fun x => k))
  (at level 100, m at next level, right associativity) : py_scope.
Notation "m ;; k" := (bind m (fun _ => k))
  (at level 100, right associativity) : py_scope.
Local Open Scope py_scope.

(** [try: m except ...: h]; [h e] is [None] when no clause matches [e]. *)
Definition try_except {A} (m : M A) (h : exn -> option (M A)) : M A :=
  fun w => match m w with
           | Raise e w' => match h e with
                           | Some k => k w'
                           | None => Raise e w'
                           end
           | r => r
           end.

(** [try: m finally: fin]: [fin] runs on the way out, whatever the way. *)
Definition try_finally {A} (m : M A) (fin : M unit) : M A :=
  fun w => match m w with
           | Ret a w' => match fin w' with
                         | Ret _ w'' => Ret a w''
                         | Raise e w'' => Raise e w''
                         | OutOfFuel => OutOfFuel
                         end
           | Raise e w' => match fin w' with
                           | Ret _ w'' => Raise e w''
                           | Raise e' w'' => Raise e' w''
                           | OutOfFuel => OutOfFuel
                           end
           | OutOfFuel => OutOfFuel
           end.

Fixpoint for_each {A} (l : list A) (f : A -> M unit) : M unit :=
  match l with
  | [] => ret tt
  | x :: l' => f x ;; for_each l' f
  end.

Definition on_KeyboardInterrupt {A} (k : M A) (e : exn) : option (M A) :=
  match e with
  | KeyboardInterrupt => Some k
  | _ => None
  end.

(** [except Exception]: every exception of the model but KeyboardInterrupt,
    which derives from BaseException only. *)
Definition on_Exception {A} (k : M A) (e : exn) : option (M A) :=
  match e with
  | KeyboardInterrupt => None
  | _ => Some k
  end.

(** ** Platform operations *)

Import PyStr.

Definition write (s : string) : M unit := fun w => Ret tt (emit (Write s) w).

Definition print_end (s e : string) : M unit := write (s +:+ e).

Definition print (s : string) : M unit := print_end s nl.

Definition tcgetattr : M termios_attr := fun w => Ret (tty_attr w) w.

Definition tcsetattr (when : tc_when) (a : termios_attr) : M unit :=
  fun w => Ret tt (set_tty a when w).

(** [termios.tcsetattr] on a terminal that has hung up: the driver refuses
    the call and [termios.error] is raised. *)
Definition tcsetattr_refused (when : tc_when) (a : termios_attr) : M unit :=
  raise TermiosError.

(** [tty.setraw(fd)]: reads the settings, switches them to raw and installs
    them after flushing. *)
Definition tty_setraw : M unit :=
  fun w => (mode <- tcgetattr ;; tcsetattr TCSAFLUSH (tty_raw w mode)) w.

(** [sys.stdin.read(1)]: one character, or the empty string at end of
    input. *)
Definition stdin_read1 : M string :=
  fun w => match stdin w with
           | [] => Ret EmptyString w
           | c :: rest => Ret (String c EmptyString) (set_stdin rest w)
           end.

Inductive line_result :=
| Line (s : string) (rest : list ascii)
| Interrupted (rest : list ascii)
| AtEof.

(** Reading one line in the terminal's line mode: the line ends at a line
    feed, which is dropped; the interrupt character raises instead of being
    delivered; nothing at all before the end of input is EOFError. *)
Fixpoint read_line (cs : list ascii) : line_result :=
  match cs with
  | [] => AtEof
  | c :: rest =>
      if Ascii.eqb c LF then Line EmptyString rest
      else if Ascii.eqb c CTRL_C then Interrupted rest
      else match read_line rest with
           | Line s r => Line (String c s) r
           | Interrupted r => Interrupted r
           | AtEof => Line (String c EmptyString) []
           end
  end.

(** [input(prompt)]. *)
Definition input (prompt : string) : M string :=
  write prompt ;;
  fun w => match read_line (stdin w) with
           | Line s rest => Ret s (set_stdin rest w)
           | Interrupted rest => Raise KeyboardInterrupt (set_stdin rest w)
           | AtEof => Raise EOFError w
           end.

Definition path_exists (p : string) : M bool :=
  fun w => Ret (bool_decide (is_Some (fs w !! p))) w.

(** [Path.read_text]: the file must exist; newlines are translated. *)
Definition read_text (p : string) : M string :=
  fun w => match fs w !! p with
           | Some c => Ret (universal_newlines c) w
           | None => Raise (FileNotFoundError p) w
           end.

(** [Path.write_text]: creates or truncates. *)
Definition write_text (p s : string) : M unit :=
  fun w => Ret tt (set_fs (<[p := s]> (fs w)) w).

(** [with p.open('a') as f: f.write(s)]: creates the file when missing. *)
Definition append_write (p s : string) : M unit :=
  fun w => Ret tt (set_fs (<[p := default EmptyString (fs w !! p) +:+ s]> (fs w)) w).

Definition unlink (p : string) : M unit :=
  fun w => match fs w !! p with
           | Some _ => Ret tt (set_fs (delete p (fs w)) w)
           | None => Raise (FileNotFoundError p) w
           end.

Definition NUL : ascii := ascii_of_nat 0.

(** Running a command through the shell, as [subprocess] does: a command
    text with a NUL in it is refused with ValueError before anything runs;
    otherwise the platform decides status and output. *)
Definition run_shell (cmd : string) : M (Z * string) :=
  fun w => if has_char NUL cmd then Raise ValueError w
           else Ret (shell w (shell_calls w) cmd) (tick_shell w).

(** [subprocess.check_output(cmd, shell=True, stderr=STDOUT)]. *)
Definition check_output (cmd : string) : M string :=
  r <- run_shell cmd ;;
  let '(rc, out) := r in
  if rc =? 0 then ret out else raise (CalledProcessError rc out).

(** [ord(ch)] for the string [sys.stdin.read(1)] gave when it is not empty. *)
Definition ord1 (ch : string) : Z :=
  match ch with
  | String c _ => ord c
  | EmptyString => 0
  end.

(** ** The script *)

Definition TMP_FILE : string := "/tmp/pyref_example.txt".
Definition MARKER_FILE : string := "/tmp/pyref_marker".

(** [get_single_key], with the platform's [termios.tcsetattr] of the
    [finally] clause as [restore]. *)
Definition get_single_key_on (restore : tc_when -> termios_attr -> M unit)
  : M (string * Z) :=
  old_settings <- tcgetattr ;;
  try_finally
    (tty_setraw ;;
     ch <- stdin_read1 ;;
     if negb (nonempty ch) then ret (EmptyString, 0)
     else if ord1 ch =? 3 then raise KeyboardInterrupt
     else ret (ch, ord1 ch))
    (restore TCSADRAIN old_settings).

Definition get_single_key : M (string * Z) := get_single_key_on tcsetattr.

Definition press_any_key (message : string) : M unit :=
  print_end message EmptyString ;;
  try_except (get_single_key ;; ret tt)
             (on_KeyboardInterrupt (print EmptyString ;; raise KeyboardInterrupt)) ;;
  print EmptyString.

Definition press_any_key_default : M unit :=
  press_any_key "Press any key to continue...".

Definition clear_screen : M unit := fun w => Ret tt (emit ClearScreen w).

Definition display_demo (kind purpose code_text : string)
    (will_output clear_before : bool) : M unit :=
  (if clear_before then clear_screen else ret tt) ;;
  print ("This is the " +:+ kind +:+ " used to " +:+ purpose) ;;
  for_each (splitlines code_text) (fun line => print ("    " +:+ line)).

Definition example_var : string := "Hello, pyref!".

Definition write_initial_file : M unit :=
  let lines :=
    [ "Line 1: Header - pyref example file" +:+ nl;
      "Line 2: This is the second line (we'll prepend numbers here later)" +:+ nl;
      "Line 3: Menu item A - apples" +:+ nl;
      "Line 4: Menu item B - bananas" +:+ nl;
      "Line 5: Menu item C - cherries" +:+ nl ] in
  write_text TMP_FILE (join EmptyString lines) ;;
  print ("Wrote initial file to " +:+ TMP_FILE).

Fixpoint ask_yes_no_loop (fuel : nat) : M bool :=
  match fuel with
  | O => fun _ => OutOfFuel
  | S fuel' =>
      key <- get_single_key ;;
      let '(ch, code) := key in
      write (ch +:+ nl) ;;
      if String.eqb (lower ch) "y" then ret true
      else if String.eqb (lower ch) "n" then ret false
      else if code =? 27 then ret false
      else write "Please press 'y' or 'n': " ;; ask_yes_no_loop fuel'
  end.

Definition ask_yes_no (fuel : nat) (question : string) : M bool :=
  write question ;; ask_yes_no_loop fuel.

Definition ask_for_text (prompt : string) : M string := input prompt.

Definition append_text_to_file (text : string) : M unit :=
  append_write TMP_FILE (text +:+ nl) ;;
  print ("Appended your text to " +:+ TMP_FILE).

Definition len {A} (l : list A) : Z := Z.of_nat (length l).

(** The prompt loop of [prepend_number_to_second_line]: [None] when the
    blank answer makes the function return, the accepted text otherwise. *)
Fixpoint prepend_prompt_loop (fuel : nat) : M (option string) :=
  match fuel with
  | O => fun _ => OutOfFuel
  | S fuel' =>
      answer <- input "Enter an integer to prepend to line 2 (blank to skip): " ;;
      let num_str := strip answer in
      if negb (nonempty num_str)
      then print "No number entered; skipping." ;; ret None
      else match int num_str with
           | Some _ => ret (Some num_str)
           | None => print "Please enter a valid integer (e.g. 5 or -2)." ;;
                     prepend_prompt_loop fuel'
           end
  end.

(** [while len(lines) < 2: lines.append('')]. *)
Definition pad_to_two (lines : list string) : list string :=
  lines ++ replicate (2 - length lines)%nat EmptyString.

Definition prepend_number_to_second_line (fuel : nat) : M unit :=
  r <- prepend_prompt_loop fuel ;;
  match r with
  | None => ret tt
  | Some num_str =>
      text <- read_text TMP_FILE ;;
      let lines := splitlines text in
      let lines := pad_to_two lines in
      let lines := <[1%nat := num_str +:+ " " +:+ nth 1 lines EmptyString]> lines in
      write_text TMP_FILE (join nl lines +:+ nl) ;;
      print ("Prepended number to the second line of " +:+ TMP_FILE +:+ ".")
  end.

Definition reprompt_menu : M unit :=
  print_end (nl +:+ "Press a valid number key or Esc: ") EmptyString.

Fixpoint menu_loop (fuel : nat) (lines : list string) (max_choices : Z)
  : M (option string) :=
  match fuel with
  | O => fun _ => OutOfFuel
  | S fuel' =>
      key <- get_single_key ;;
      let '(ch, code) := key in
      if code =? 27 then print (nl +:+ "Menu cancelled.") ;; ret None
      else if isdigit ch then
        match int ch with
        | None => raise ValueError
        | Some n =>
            if (1 <=? n) && (n <=? max_choices) then
              let choice := nth (Z.to_nat (n - 1)) lines EmptyString in
              print (nl +:+ "You selected: " +:+ choice) ;; ret (Some choice)
            else reprompt_menu ;; menu_loop fuel' lines max_choices
        end
      else reprompt_menu ;; menu_loop fuel' lines max_choices
  end.

Definition menu_from_file (fuel : nat) : M (option string) :=
  content <- read_text TMP_FILE ;;
  let lines := List.filter (fun ln => nonempty (strip ln)) (splitlines content) in
  match lines with
  | [] => print "No menu items found in the file." ;; ret None
  | _ =>
      let max_choices := Z.min 9 (len lines) in
      print "Menu (press the number key to choose; Esc to cancel):" ;;
      for_each (seq 0 (Z.to_nat max_choices))
        (fun i => print (" " +:+ str_of_Z (Z.of_nat i + 1) +:+ ") "
                         +:+ nth i lines EmptyString)) ;;
      menu_loop fuel lines max_choices
  end.

Definition run_bash_command (cmd : string) : M unit :=
  print ("Executing shell command (streamed): " +:+ cmd) ;;
  r <- run_shell cmd ;;
  write (snd r).

Definition capture_bash_output (cmd : string) : M string :=
  try_except
    (output <- check_output cmd ;;
     print ("Captured output of command: " +:+ repr cmd) ;;
     ret output)
    (fun e => match e with
              | CalledProcessError returncode output =>
                  Some (print ("Command failed with exit " +:+ str_of_Z returncode
                               +:+ ". Output:" +:+ nl +:+ output) ;;
                        ret EmptyString)
              | _ => None
              end).

Definition demonstrate_data_types : M unit :=
  print (nl +:+ "Data types and their values:") ;;
  for_each
    [ " an_int: value=42, type=int";
      " a_float: value=3.14159, type=float";
      " a_str: value='sample', type=str";
      " a_bool: value=True, type=bool";
      " a_list: value=[1, 2, 3], type=list";
      " a_tuple: value=('a', 'b'), type=tuple";
      " a_dict: value={'key': 'value'}, type=dict";
      " a_none: value=None, type=NoneType" ] print.

Definition get_GLOBAL_VAR : M string := fun w => Ret (GLOBAL_VAR w) w.

Definition demonstrate_scope : M unit :=
  let local_var := "I am local" in
  let inner_without_global : M string :=
    ret "modified in inner_without_global (local)" in
  let inner_with_global : M string :=
    (fun w => Ret tt (set_global "modified in inner_with_global (global)" w)) ;;
    get_GLOBAL_VAR in
  print (nl +:+ "Scope demonstration:") ;;
  g <- get_GLOBAL_VAR ;;
  print (" Before calls, GLOBAL_VAR = " +:+ g) ;;
  r <- inner_without_global ;;
  print (" inner_without_global returns: " +:+ r) ;;
  g <- get_GLOBAL_VAR ;;
  print (" After inner_without_global, GLOBAL_VAR still = " +:+ g) ;;
  r <- inner_with_global ;;
  print (" inner_with_global returns: " +:+ r) ;;
  g <- get_GLOBAL_VAR ;;
  print (" After inner_with_global, GLOBAL_VAR now = " +:+ g) ;;
  print (" local_var remains accessible inside demonstrate_scope: " +:+ local_var).

Definition add (a b : Z) : Z := a + b.

Definition greet (name : string) : string := "Hello, " +:+ name +:+ "!".

Definition demonstrate_functions : M unit :=
  print (nl +:+ "Functions demonstration:") ;;
  print (" add(2,3) => " +:+ str_of_Z (add 2 3)) ;;
  print (" greet('Alice') => " +:+ greet "Alice").

Definition conditional_example (value : Z) : M unit :=
  if value <? 0 then print "Value is negative."
  else if value =? 0 then print "Value is zero."
  else print "Value is positive.".

Definition demonstrate_imports : M unit :=
  print (nl +:+ "Imports demonstration:") ;;
  fun w =>
    (if HAS_REQUESTS w
     then print "The 'requests' library is installed. Example: you could use requests.get(url)."
     else print "The 'requests' library is NOT installed. Install with: pip install requests" ;;
          print "Standard library alternative: urllib.request") w.

Definition branch_A_notice : string :=
  "Marker file " +:+ MARKER_FILE +:+ " exists. Taking branch A.".

Definition branch_B_notice : string :=
  "Marker file " +:+ MARKER_FILE
  +:+ " does not exist. Creating it now and taking branch B.".

Definition marker_file_demo : M unit :=
  present <- path_exists MARKER_FILE ;;
  if present then
    print branch_A_notice ;;
    captured <- capture_bash_output "date" ;;
    print ("Date output captured (example): " +:+ strip captured)
  else
    print branch_B_notice ;;
    write_text MARKER_FILE ("marker" +:+ nl) ;;
    print ("Created marker file " +:+ MARKER_FILE).

Definition END_MARK : string := " -- END".

(** The second-line block of [text_parsing_demo]. *)
Definition suffix_second_line (lines : list string) : M (list string) :=
  if 2 <=? len lines then
    if negb (endswith (nth 1 lines EmptyString) END_MARK) then
      let lines := <[1%nat := rstrip (nth 1 lines EmptyString) +:+ END_MARK]> lines in
      print "Appended marker to end of second line." ;;
      ret lines
    else ret lines
  else ret lines.

Definition dashes : string := repeat_char "-" 40.

Definition text_parsing_demo : M unit :=
  print (nl +:+ "Text parsing and manipulation demo:") ;;
  text <- read_text TMP_FILE ;;
  print "File contents (before):" ;;
  print dashes ;;
  print (rstrip text) ;;
  print dashes ;;
  (if contains "apples" text
   then print "Found substring 'apples' in file."
   else print "Did not find substring 'apples' in file.") ;;
  text <- (if contains "bananas" text
           then let text := replace_first "bananas" "blueberries" text in
                print "Replaced first occurrence of 'bananas' with 'blueberries'." ;;
                ret text
           else ret text) ;;
  let lines := splitlines text in
  lines <- (match lines with
            | first :: _ =>
                if contains "Header" first
                then let lines :=
                       <[0%nat := "Header: " +:+ strip (replace_all "Header" EmptyString first)]>
                         lines in
                     print "Moved 'Header' to start of first line." ;;
                     ret lines
                else ret lines
            | [] => ret lines
            end) ;;
  lines <- suffix_second_line lines ;;
  write_text TMP_FILE (join nl lines +:+ nl) ;;
  print "File contents (after):" ;;
  print dashes ;;
  after <- read_text TMP_FILE ;;
  print (rstrip after) ;;
  print dashes.

(** ** The main flow, one definition per demonstration block *)

Definition step_intro : M unit :=
  display_demo "code" "show the example_var value"
    "print('example_var currently contains:', example_var)" true true ;;
  print ("Result: example_var = " +:+ example_var) ;;
  press_any_key_default.

Definition step_create_file : M unit :=
  display_demo "code" "create the initial example file at /tmp"
    "write_initial_file()" true true ;;
  write_initial_file.

(** The body of the first [try] of [main]. *)
Definition edit_action (fuel : nat) : M unit :=
  yes <- ask_yes_no fuel "Would you like to edit the example file now? (y/n) " ;;
  if yes then
    display_demo "command" "prompt for a line of text to append to the file"
      "user_text = ask_for_text('Please type a line to append to the file: ')"
      true true ;;
    user_text <- ask_for_text "Please type a line to append to the file: " ;;
    print ("Result: user_text = " +:+ repr user_text) ;;
    press_any_key_default ;;
    display_demo "code" "append the user's text to the example file"
      "append_text_to_file(user_text)" true false ;;
    append_text_to_file user_text ;;
    display_demo "command" "prompt for an integer and prepend it to line 2"
      "prepend_number_to_second_line()" true true ;;
    prepend_number_to_second_line fuel
  else
    print "Result: user chose not to edit the example file." ;;
    press_any_key_default.

Definition edit_notice_text : string :=
  nl +:+ "Interrupted by user; continuing with defaults.".

Definition edit_interrupted : M unit :=
  print edit_notice_text ;;
  press_any_key_default.

Definition edit_preamble : M unit :=
  display_demo "command" "ask whether to edit the example file now (press y/n)"
    "ask_yes_no('Would you like to edit the example file now? (y/n) ')"
    true true.

Definition step_edit (fuel : nat) : M unit :=
  edit_preamble ;;
  try_except (edit_action fuel) (on_KeyboardInterrupt edit_interrupted).

Definition step_inform : M unit :=
  display_demo "code" "inform the user and wait for a keypress"
    "press_any_key('Informing you: editing steps are complete. Press any key to continue...')"
    true true ;;
  press_any_key "Informing you: editing steps are complete. Press any key to continue...".

Definition step_menu (fuel : nat) : M unit :=
  display_demo "command"
    "display a menu built from /tmp/pyref_example.txt and wait for single-key selection"
    "choice = menu_from_file()" true true ;;
  choice <- menu_from_file fuel ;;
  match choice with
  | None => print "Result: No menu choice selected."
  | Some c => print ("Result: You chose: " +:+ c)
  end ;;
  press_any_key_default.

Definition shell_cmd : string :=
  "echo 'This is a shell command running from Python'; ls -l /tmp | head -n 3".

Definition step_shell : M unit :=
  display_demo "command" "execute a shell command and stream its output"
    shell_cmd true true ;;
  run_bash_command shell_cmd ;;
  press_any_key_default.

Definition capture_cmd : string := "ls -1 /tmp | head -n 10".

Definition step_capture : M unit :=
  display_demo "command"
    "capture the output of a shell command into a Python variable"
    ("ls_output = capture_bash_output(" +:+ repr capture_cmd +:+ ")") true true ;;
  ls_output <- capture_bash_output capture_cmd ;;
  print "Result: ls_output (first 200 chars):" ;;
  print (rstrip (String.substring 0 200 ls_output)) ;;
  press_any_key_default.

Definition step_data_types : M unit :=
  display_demo "code" "run the data types demonstration"
    "demonstrate_data_types()" true true ;;
  demonstrate_data_types ;;
  press_any_key_default.

Definition step_scope : M unit :=
  display_demo "code" "run the scope demonstration" "demonstrate_scope()"
    true true ;;
  demonstrate_scope ;;
  press_any_key_default.

Definition step_functions : M unit :=
  display_demo "code" "run the functions demonstration"
    "demonstrate_functions()" true true ;;
  demonstrate_functions ;;
  press_any_key_default.

(** The [try] of the conditional block: any Exception gives 0. *)
Definition conditional_input : M Z :=
  try_except
    (answer <- input "Enter an integer for the conditional demo (e.g. -1, 0, 5): " ;;
     match int answer with
     | Some v => ret v
     | None => raise ValueError
     end)
    (on_Exception (ret 0)).

Definition step_conditional : M unit :=
  display_demo "command" "prompt for an integer and run an if/elif/else demo"
    "v = int(input(...)); conditional_example(v)" true true ;;
  v <- conditional_input ;;
  conditional_example v ;;
  press_any_key_default.

Definition step_imports : M unit :=
  display_demo "code" "demonstrate imports (requests detection)"
    "demonstrate_imports()" true true ;;
  demonstrate_imports ;;
  press_any_key_default.

Definition step_marker : M unit :=
  display_demo "code" "demonstrate marker file creation/detection"
    "marker_file_demo()" true true ;;
  marker_file_demo ;;
  press_any_key_default.

Definition step_text_parsing : M unit :=
  display_demo "code"
    "run text parsing and manipulation demo on the example file"
    "text_parsing_demo()" true true ;;
  text_parsing_demo ;;
  press_any_key_default.

Definition unlink_if_exists (p : string) : M unit :=
  present <- path_exists p ;;
  if present then unlink p else ret tt.

(** The body of the second [try] of [main]. *)
Definition cleanup_action (fuel : nat) : M unit :=
  yes <- ask_yes_no fuel "Demo complete. Clean up example files? (y/n) " ;;
  if yes then
    unlink_if_exists TMP_FILE ;;
    unlink_if_exists MARKER_FILE ;;
    print "Result: Example files removed." ;;
    press_any_key_default
  else
    print ("Result: Files left in place: " +:+ TMP_FILE +:+ ", " +:+ MARKER_FILE) ;;
    press_any_key_default.

Definition cleanup_notice_text : string :=
  nl +:+ "Interrupted during cleanup prompt; leaving files in place.".

Definition cleanup_interrupted : M unit :=
  print cleanup_notice_text ;;
  press_any_key_default.

Definition cleanup_preamble : M unit :=
  display_demo "command" "ask whether to clean up example files (press y/n)"
    "ask_yes_no()" true true.

Definition step_cleanup (fuel : nat) : M unit :=
  cleanup_preamble ;;
  try_except (cleanup_action fuel) (on_KeyboardInterrupt cleanup_interrupted).

(** The blocks of [main], in the order the source runs them. *)
Definition main_steps (fuel : nat) : list (M unit) :=
  [ step_intro; step_create_file; step_edit fuel; step_inform;
    step_menu fuel; step_shell; step_capture; step_data_types; step_scope;
    step_functions; step_conditional; step_imports; step_marker;
    step_text_parsing; step_cleanup fuel ].

Definition run_steps (steps : list (M unit)) : M unit :=
  for_each steps (fun step => step).

Definition main (fuel : nat) : M unit :=
  run_steps (main_steps fuel) ;;
  print "Exiting pyref.py. Goodbye.".

(** ** Sample worlds *)

Definition cooked : termios_attr :=
  {| iflag := 17664; oflag := 5; cflag := 191; lflag := 35387;
     ispeed := 15; ospeed := 15; cc := [3; 28; 127; 21; 4; 0; 1] |}.

(** The raw settings of CPython's [tty.setraw] on Linux. *)
Definition linux_setraw (a : termios_attr) : termios_attr :=
  {| iflag := Z.ldiff (iflag a) 1330;
     oflag := Z.ldiff (oflag a) 1;
     cflag := Z.lor (Z.ldiff (cflag a) 304) 48;
     lflag := Z.ldiff (lflag a) 32779;
     ispeed := ispeed a; ospeed := ospeed a;
     cc := <[5%nat := 0]> (<[6%nat := 1]> (cc a)) |}.

Definition quiet_shell (n : nat) (cmd : string) : Z * string :=
  (0, EmptyString).

Definition world0 (keys : list ascii) (files : gmap string string) : world :=
  {| tty_attr := cooked; tty_calls := []; stdin := keys; stdout := [];
     fs := files; GLOBAL_VAR := "I am global"; HAS_REQUESTS := false;
     shell_calls := 0; tty_raw := linux_setraw; shell := quiet_shell |}.

Definition keys_of (s : string) : list ascii := list_ascii_of_string s.

(** * Vocabulary of the properties *)

(** The world an outcome ends in, when it ends. *)
Definition final_world {A} (o : outcome A) : option world :=
  match o with
  | Ret _ w => Some w
  | Raise _ w => Some w
  | OutOfFuel => None
  end.

(** The world after [tty.setraw]. *)
Definition raw_entered (w : world) : world :=
  set_tty (tty_raw w (tty_attr w)) TCSAFLUSH w.

(** The world after one call of [get_single_key]: raw mode entered, one
    character taken when there is one, the settings of before installed. *)
Definition after_key (w : world) : world :=
  set_tty (tty_attr w) TCSADRAIN (set_stdin (tl (stdin w)) (raw_entered w)).

Definition key_result (w : world) : outcome (string * Z) :=
  match stdin w with
  | [] => Ret (EmptyString, 0) (after_key w)
  | c :: _ => if ord c =? 3 then Raise KeyboardInterrupt (after_key w)
              else Ret (String c EmptyString, ord c) (after_key w)
  end.

(** A line holds no line boundary. *)
Fixpoint line_clean (s : string) : bool :=
  match s with
  | EmptyString => true
  | String c s' => negb (is_linebreak c) && line_clean s'
  end.

(** The lines the script sees in a file's text: [read_text] followed by
    [splitlines]. *)
Definition text_lines (content : string) : list string :=
  splitlines (universal_newlines content).

Definition file_lines (p : string) (w : world) : option (list string) :=
  text_lines <$> fs w !! p.

Definition two_lines_terminated : gmap string string :=
  {[ TMP_FILE := ("a" +:+ nl +:+ "b") +:+ nl ]}.

Definition two_lines_unterminated : gmap string string :=
  {[ TMP_FILE := "a" +:+ nl +:+ "b" ]}.

Definition prepend_prompt : string :=
  "Enter an integer to prepend to line 2 (blank to skip): ".

(** What the function writes back, as lines: the lines read, padded to
    two, with the number and a space in front of the second. *)
Definition prepended (num_str : string) (content : string) : list string :=
  let lines := pad_to_two (text_lines content) in
  <[1%nat := num_str +:+ " " +:+ nth 1 lines EmptyString]> lines.

Definition second_line_abc : gmap string string :=
  {[ TMP_FILE := "head" +:+ nl +:+ "abc" +:+ nl ]}.

(** The lines of a file in the world an outcome ends in. *)
Definition lines_after {A} (p : string) (o : outcome A) : option (list string) :=
  match final_world o with
  | Some w => file_lines p w
  | None => None
  end.

Inductive branch := BranchA | BranchB.

(** The branch a line of output announces, if it is one of the two
    notices of [marker_file_demo]. *)
Definition branch_of (e : out_event) : option branch :=
  match e with
  | Write s => if String.eqb s (branch_A_notice +:+ nl) then Some BranchA
               else if String.eqb s (branch_B_notice +:+ nl) then Some BranchB
               else None
  | ClearScreen => None
  end.

Definition branches_taken (out : list out_event) : list branch :=
  omap branch_of out.

Definition created_notice : string := "Created marker file " +:+ MARKER_FILE +:+ nl.

Definition key_yes (c : ascii) : bool := Ascii.eqb c "y" || Ascii.eqb c "Y".

Definition key_no (c : ascii) : bool :=
  Ascii.eqb c "n" || Ascii.eqb c "N" || Ascii.eqb c ESC.

(** The keys that end the prompt. *)
Definition accepting (c : ascii) : bool := key_yes c || key_no c.

(** The keys that are read, echoed and answered by the guidance text: all
    but the accepting ones and Ctrl-C. *)
Definition rejected (c : ascii) : bool :=
  negb (accepting c) && negb (Ascii.eqb c CTRL_C).

Definition guidance : string := "Please press 'y' or 'n': ".

Definition echo (c : ascii) : out_event := Write (String c nl).

(** What the loop writes for a run of rejected keys. *)
Definition echoes (pre : list ascii) : list out_event :=
  flat_map (fun c => [echo c; Write guidance]) pre.

(** An outcome that raises [e]. *)
Definition raises {A} (o : outcome A) (e : exn) : Prop :=
  match o with
  | Raise e' _ => e' = e
  | _ => False
  end.

Definition stdout_after {A} (o : outcome A) : option (list out_event) :=
  stdout <$> final_world o.

Definition stdin_after {A} (o : outcome A) : option (list ascii) :=
  stdin <$> final_world o.

(** Several events written in a row. *)
Definition emits (es : list out_event) (w : world) : world :=
  fold_left (fun w e => emit e w) es w.

(** The lines offered by the menu: those of the file that are not blank. *)
Definition menu_items (content : string) : list string :=
  List.filter (fun ln => nonempty (strip ln)) (text_lines content).

Definition menu_header : string :=
  "Menu (press the number key to choose; Esc to cancel):".

Definition menu_row (items : list string) (i : nat) : out_event :=
  Write ((" " +:+ str_of_Z (Z.of_nat i + 1) +:+ ") " +:+ nth i items EmptyString)
         +:+ nl).

(** The rows on display: one for each of the first [min 9 n] items. *)
Definition menu_rows (items : list string) : list out_event :=
  map (menu_row items) (seq 0 (Z.to_nat (Z.min 9 (len items)))).

Definition menu_shown (items : list string) (w : world) : world :=
  emits (Write (menu_header +:+ nl) :: menu_rows items) w.

Definition menu_reprompt : out_event :=
  Write (nl +:+ "Press a valid number key or Esc: ").

Definition menu_cancelled : out_event :=
  Write (nl +:+ "Menu cancelled." +:+ nl).

Definition menu_selected (choice : string) : out_event :=
  Write (nl +:+ "You selected: " +:+ choice +:+ nl).

(** The key that carries the decimal digit [d]. *)
Definition digit_key (d : Z) : ascii := ascii_of_N (Z.to_N (48 + d)).

Definition five_items : gmap string string :=
  {[ TMP_FILE := "one" +:+ nl +:+ "two" +:+ nl +:+ "three" +:+ nl
                 +:+ "four" +:+ nl +:+ "five" +:+ nl ]}.

Definition five_lines : string :=
  "one" +:+ nl +:+ "two" +:+ nl +:+ "three" +:+ nl
  +:+ "four" +:+ nl +:+ "five" +:+ nl.

Definition eleven_items : gmap string string :=
  {[ TMP_FILE := "a" +:+ nl +:+ "b" +:+ nl +:+ "c" +:+ nl +:+ "d" +:+ nl
                 +:+ "e" +:+ nl +:+ "f" +:+ nl +:+ "g" +:+ nl +:+ "h" +:+ nl
                 +:+ "i" +:+ nl +:+ "j" +:+ nl +:+ "k" +:+ nl ]}.

(** The world a computation ends in (the starting one when it does not
    end). *)
Definition world_after {A} (m : M A) (w : world) : world :=
  default w (final_world (m w)).

Definition pause_prompt : out_event := Write "Press any key to continue...".

(** The world after [press_any_key()] took a key (or met the end of
    input). *)
Definition pause_world (w : world) : world :=
  emit (Write nl) (after_key (emit pause_prompt w)).





(** ** Vocabulary of the further properties *)

(** A computation that leaves the terminal settings as it found them,
    whether it returns or raises. *)
Definition keeps_tty {A} (m : M A) : Prop :=
  forall w w', final_world (m w) = Some w' -> tty_attr w' = tty_attr w.

Definition skip_notice : out_event := Write ("No number entered; skipping." +:+ nl).

Definition invalid_integer_notice : out_event :=
  Write ("Please enter a valid integer (e.g. 5 or -2)." +:+ nl).

Definition three_lines : string := "a" +:+ nl +:+ "b" +:+ nl +:+ "c" +:+ nl.

Definition no_items_notice : out_event :=
  Write ("No menu items found in the file." +:+ nl).

(** The keys the menu loop answers with its prompt and another read:
    neither Ctrl-C nor Escape, and either no digit at all or a decimal
    digit outside [1 .. mx]. *)
Definition menu_ignored (mx : Z) (c : ascii) : bool :=
  negb (ord c =? 3) && negb (ord c =? 27)
  && (negb (isdigit_char c)
      || (is_ascii_digit c && negb ((1 <=? ord c - 48) && (ord c - 48 <=? mx)))).

(** The keys that [str.isdigit] takes for digits and [int] refuses. *)
Definition superscript_digit (c : ascii) : bool :=
  isdigit_char c && negb (is_ascii_digit c).

(** The lines [write_initial_file] puts in the scratch file. *)
Definition initial_lines : list string :=
  [ "Line 1: Header - pyref example file";
    "Line 2: This is the second line (we'll prepend numbers here later)";
    "Line 3: Menu item A - apples";
    "Line 4: Menu item B - bananas";
    "Line 5: Menu item C - cherries" ].

Definition conditional_prompt : string :=
  "Enter an integer for the conditional demo (e.g. -1, 0, 5): ".

Definition cleanup_question : string :=
  "Demo complete. Clean up example files? (y/n) ".

(** The pure part of [text_parsing_demo], step by step. *)
Definition replace_bananas (text : string) : string :=
  if contains "bananas" text
  then replace_first "bananas" "blueberries" text else text.

Definition move_header (lines : list string) : list string :=
  match lines with
  | first :: _ =>
      if contains "Header" first
      then <[0%nat := "Header: " +:+ strip (replace_all "Header" EmptyString first)]>
             lines
      else lines
  | [] => lines
  end.

Definition mark_second (lines : list string) : list string :=
  if 2 <=? len lines then
    if negb (endswith (nth 1 lines EmptyString) END_MARK)
    then <[1%nat := rstrip (nth 1 lines EmptyString) +:+ END_MARK]> lines
    else lines
  else lines.

(** The lines [text_parsing_demo] writes back for a file holding
    [content]. *)
Definition parsed_lines (content : string) : list string :=
  mark_second (move_header (splitlines (replace_bananas (universal_newlines content)))).

(** The scratch file, if there is one, ends with a line feed. *)
Definition ends_nl (w : world) : Prop :=
  match fs w !! TMP_FILE with
  | Some c => endswith c nl = true
  | None => True
  end.

(** ** Vocabulary of the platform's part in a raw read *)

(** The world in which the [finally] clause of [get_single_key] runs: raw
    mode entered and the character, if any, taken. *)
Definition before_restore (w : world) : world :=
  set_stdin (tl (stdin w)) (raw_entered w).

(** What the guarded block of [get_single_key] hands over once the
    [finally] clause has run and left the world [w2]. *)
Definition key_outcome (w w2 : world) : outcome (string * Z) :=
  match stdin w with
  | [] => Ret (EmptyString, 0) w2
  | c :: _ => if ord c =? 3 then Raise KeyboardInterrupt w2
              else Ret (String c EmptyString, ord c) w2
  end.

(** A computation that swallows no interrupt: the keys it took from the
    input hold no Ctrl-C unless it ended by raising KeyboardInterrupt. *)
Definition interrupt_escapes {A} (m : M A) : Prop :=
  forall w w', final_world (m w) = Some w' ->
    exists used, stdin w = used ++ stdin w'
      /\ (raises (m w) KeyboardInterrupt \/ ~ In CTRL_C used).





(** * Properties *)

(** ** String methods on examples *)

Example splitlines_ex1 :
  PyStr.splitlines ("a" +:+ PyStr.nl +:+ "b") = ["a"; "b"].
Proof. reflexivity. Qed.

Example splitlines_ex2 :
  PyStr.splitlines ("a" +:+ PyStr.nl +:+ PyStr.nl) = ["a"; ""].
Proof. reflexivity. Qed.

Example splitlines_ex3 :
  PyStr.splitlines (String PyStr.CR (String PyStr.LF "b")) = [""; "b"].
Proof. reflexivity. Qed.

Example int_ex : PyStr.int " -1_000 " = Some (-1000) /\ PyStr.int "1__0" = None
                 /\ PyStr.int "" = None /\ PyStr.int "+7" = Some 7.
Proof. repeat split; reflexivity. Qed.

(** [int] strips the white space of C and of Unicode above 127, not the
    separators 28 to 31 that [str.strip] takes; and it refuses more than
    4300 digits. *)
Example int_space_ex :
  PyStr.int (String (ascii_of_nat 160) "5") = Some 5
  /\ PyStr.int ("5" +:+ String (ascii_of_nat 31) "") = None
  /\ PyStr.strip ("5" +:+ String (ascii_of_nat 31) "") = "5"
  /\ PyStr.int (PyStr.repeat_char "1" 4300) <> None
  /\ PyStr.int (PyStr.repeat_char "1" 4301) = None.
Proof. vm_compute. repeat split. discriminate. Qed.

Example repr_ex : PyStr.repr "it's" = String PyStr.DQUOTE ("it's" +:+ String PyStr.DQUOTE "").
Proof. reflexivity. Qed.

Example rstrip_ex : PyStr.rstrip " a b  " = " a b" /\ PyStr.strip "  " = "".
Proof. split; reflexivity. Qed.

(** ** The monad *)

Lemma bind_ret {A B} (a : A) (k : A -> M B) (w : world) :
  bind (ret a) k w = k a w.
Proof. reflexivity. Qed.

Lemma bind_Ret {A B} (m : M A) (k : A -> M B) (w w' : world) (a : A) :
  m w = Ret a w' -> bind m k w = k a w'.
Proof. intros H. unfold bind. now rewrite H. Qed.

Lemma bind_Raise {A B} (m : M A) (k : A -> M B) (w w' : world) (e : exn) :
  m w = Raise e w' -> bind m k w = Raise e w'.
Proof. intros H. unfold bind. now rewrite H. Qed.

Lemma bind_OutOfFuel {A B} (m : M A) (k : A -> M B) (w : world) :
  m w = OutOfFuel -> bind m k w = OutOfFuel.
Proof. intros H. unfold bind. now rewrite H. Qed.

Lemma bind_assoc {A B C} (m : M A) (k : A -> M B) (h : B -> M C) (w : world) :
  bind (bind m k) h w = bind m (fun a => bind (k a) h) w.
Proof. unfold bind. destruct (m w); reflexivity. Qed.

(** Whatever the guarded block does, [finally: tcsetattr(old)] leaves the
    settings [old] in effect, and that call is the last one made. *)
Lemma try_finally_tcsetattr {A} (m : M A) (old : termios_attr) (w w1 : world) :
  final_world (m w) = Some w1 ->
  exists w2, final_world (try_finally m (tcsetattr TCSADRAIN old) w) = Some w2
             /\ tty_attr w2 = old
             /\ tty_calls w2 = tty_calls w1 ++ [(TCSADRAIN, old)].
Proof.
  unfold try_finally. destruct (m w) as [a w'|e w'|]; simpl; intros H;
    inversion H; subst; eexists; repeat split.
Qed.

(** ** One raw read *)

Lemma get_single_key_eq (w : world) : get_single_key w = key_result w.
Proof.
  unfold key_result, after_key, get_single_key, get_single_key_on, bind,
    try_finally, tcgetattr,
    tty_setraw, stdin_read1, tcsetattr, bind, raw_entered.
  simpl. destruct (stdin w) as [|c rest] eqn:E; simpl.
  - destruct w; simpl in *; now subst.
  - unfold raise, ret. destruct (ord c =? 3); reflexivity.
Qed.

Lemma after_key_stdin w : stdin (after_key w) = tl (stdin w).
Proof. reflexivity. Qed.

Lemma after_key_stdout w : stdout (after_key w) = stdout w.
Proof. reflexivity. Qed.

Lemma after_key_fs w : fs (after_key w) = fs w.
Proof. reflexivity. Qed.

Lemma after_key_tty_attr w : tty_attr (after_key w) = tty_attr w.
Proof. reflexivity. Qed.

Lemma after_key_tty_calls w :
  tty_calls (after_key w)
  = tty_calls w ++ [(TCSAFLUSH, tty_raw w (tty_attr w)); (TCSADRAIN, tty_attr w)].
Proof. unfold after_key, raw_entered. simpl. now rewrite <- app_assoc. Qed.


(** C1: for every world, the call of [get_single_key] ends (by returning or
    by raising) in a world whose terminal settings are those in effect
    before the call; on the way it made exactly two [tcsetattr] calls, the
    one that entered raw mode and then the single one that installed the
    captured settings again.  This covers the normal return, the empty
    read and the Ctrl-C path alike. *)
Theorem get_single_key_restores_mode (w : world) :
  exists w', final_world (get_single_key w) = Some w'
    /\ tty_attr w' = tty_attr w
    /\ tty_calls w'
       = tty_calls w ++ [(TCSAFLUSH, tty_raw w (tty_attr w));
                         (TCSADRAIN, tty_attr w)].
Proof.
  exists (after_key w). rewrite get_single_key_eq. unfold key_result.
  split; [|split].
  - destruct (stdin w) as [|c rest]; [reflexivity|].
    destruct (ord c =? 3); reflexivity.
  - apply after_key_tty_attr.
  - apply after_key_tty_calls.
Qed.

(** ** Lines of a text *)

Lemma append_assoc (a b c : string) : (a +:+ b) +:+ c = a +:+ (b +:+ c).
Proof. induction a as [|x a IH]; simpl; [reflexivity|now rewrite IH]. Qed.

Lemma append_empty_r (a : string) : a +:+ EmptyString = a.
Proof. induction a as [|x a IH]; simpl; [reflexivity|now rewrite IH]. Qed.

Lemma endswith_app (s suf : string) : endswith (s +:+ suf) suf = true.
Proof.
  induction s as [|c s IH]; simpl.
  - destruct suf; simpl; rewrite ?String.eqb_refl, ?Ascii.eqb_refl; reflexivity.
  - rewrite IH. apply orb_true_r.
Qed.

Lemma line_clean_app (a b : string) :
  line_clean (a +:+ b) = line_clean a && line_clean b.
Proof.
  induction a as [|c a IH]; simpl; [reflexivity|].
  rewrite IH. now rewrite andb_assoc.
Qed.

Lemma clean_not_LF_CR (c : ascii) :
  is_linebreak c = false -> Ascii.eqb c LF = false /\ Ascii.eqb c CR = false.
Proof.
  intros H. split.
  - destruct (Ascii.eqb_spec c LF) as [->|]; [discriminate H|reflexivity].
  - destruct (Ascii.eqb_spec c CR) as [->|]; [discriminate H|reflexivity].
Qed.

Lemma cons_char_clean (c : ascii) (ls : list string) :
  is_linebreak c = false ->
  Forall (fun l => line_clean l = true) ls ->
  Forall (fun l => line_clean l = true) (cons_char c ls).
Proof.
  intros Hc Hls. destruct ls as [|l ls]; simpl.
  - constructor; [|constructor]. simpl. now rewrite Hc.
  - inversion Hls; subst. constructor; [|assumption]. simpl. now rewrite Hc.
Qed.

Lemma splitlines_from_clean (s : string) : forall q,
  Forall (fun l => line_clean l = true) (splitlines_from q s).
Proof.
  induction s as [|c s IH]; intros q; simpl; [constructor|].
  destruct (Ascii.eqb c LF && q); [apply IH|].
  destruct (is_linebreak c) eqn:Hc.
  - constructor; [reflexivity|apply IH].
  - apply cons_char_clean; [assumption|apply IH].
Qed.

Lemma text_lines_clean (content : string) :
  Forall (fun l => line_clean l = true) (text_lines content).
Proof. apply splitlines_from_clean. Qed.

(** A clean line followed by a line feed is the first line of the text. *)
Lemma text_lines_cons (l rest : string) :
  line_clean l = true ->
  text_lines (l +:+ nl +:+ rest) = l :: text_lines rest.
Proof.
  unfold text_lines, universal_newlines, splitlines.
  induction l as [|c l IH]; simpl; intros H.
  - reflexivity.
  - apply andb_prop in H as [Hc Hl]. apply negb_true_iff in Hc.
    destruct (clean_not_LF_CR c Hc) as [HLF HCR].
    rewrite HCR, HLF. simpl. rewrite HLF, Hc. simpl.
    specialize (IH Hl). simpl in IH. now rewrite IH.
Qed.

(** Writing lines joined by line feeds, with one more at the end, and
    reading the text back gives the same lines. *)
Lemma text_lines_join (ls : list string) :
  ls <> [] ->
  Forall (fun l => line_clean l = true) ls ->
  text_lines (join nl ls +:+ nl) = ls.
Proof.
  induction ls as [|l ls IH]; [easy|]. intros _ H.
  inversion H as [|? ? Hl Hls]; subst.
  destruct ls as [|l2 ls].
  - simpl. rewrite <- (append_empty_r (l +:+ nl)), append_assoc.
    now rewrite text_lines_cons.
  - change (join nl (l :: l2 :: ls)) with (l +:+ nl +:+ join nl (l2 :: ls)).
    rewrite !append_assoc. rewrite text_lines_cons by assumption.
    f_equal. apply IH; [discriminate|assumption].
Qed.

Lemma universal_newlines_from_app_nl (c0 y : string) : forall p,
  universal_newlines_from p (c0 +:+ nl +:+ y)
  = universal_newlines_from p (c0 +:+ nl) +:+ universal_newlines_from false y.
Proof.
  induction c0 as [|c c0 IH]; intros p; simpl.
  - destruct p; reflexivity.
  - destruct (Ascii.eqb c CR); [simpl; now rewrite IH|].
    destruct (Ascii.eqb c LF && p); [apply IH|].
    simpl. now rewrite IH.
Qed.

Lemma universal_newlines_from_ends_nl (c0 : string) : forall p,
  p = false \/ c0 <> EmptyString ->
  exists a0, universal_newlines_from p (c0 +:+ nl) = a0 +:+ nl.
Proof.
  induction c0 as [|c c0 IH]; intros p Hp.
  - destruct Hp as [->|Hp]; [|easy]. now exists EmptyString.
  - simpl. destruct (Ascii.eqb c CR).
    + destruct c0 as [|c' c0].
      * now exists EmptyString.
      * destruct (IH true) as [a0 Ha0]; [now right|].
        exists (String LF a0). simpl. now rewrite <- Ha0.
    + destruct (Ascii.eqb c LF && p).
      * apply IH. now left.
      * destruct (IH false) as [a0 Ha0]; [now left|].
        exists (String c a0). simpl. now rewrite <- Ha0.
Qed.

Lemma splitlines_from_false_cons (c : ascii) (s : string) :
  splitlines_from false (String c s) <> [].
Proof.
  simpl. rewrite andb_false_r. destruct (is_linebreak c); [discriminate|].
  destruct (splitlines_from false s); discriminate.
Qed.

Lemma cons_char_app (c : ascii) (xs ys : list string) :
  xs <> [] -> cons_char c (xs ++ ys) = cons_char c xs ++ ys.
Proof. destruct xs; [easy|reflexivity]. Qed.

Lemma splitlines_from_app_nl (a0 b : string) : forall q,
  splitlines_from q (a0 +:+ nl +:+ b)
  = splitlines_from q (a0 +:+ nl) ++ splitlines_from false b.
Proof.
  induction a0 as [|c a0 IH]; intros q; simpl.
  - destruct q; reflexivity.
  - destruct (Ascii.eqb c LF && q); [apply IH|].
    destruct (is_linebreak c).
    + now rewrite IH.
    + rewrite IH. apply cons_char_app.
      destruct a0; simpl; [discriminate|apply splitlines_from_false_cons].
Qed.

(** Text appended to a file that ends with a line feed starts new lines. *)
Lemma text_lines_app_nl (c0 y : string) :
  text_lines ((c0 +:+ nl) +:+ y) = text_lines (c0 +:+ nl) ++ text_lines y.
Proof.
  unfold text_lines, universal_newlines, splitlines.
  rewrite append_assoc, universal_newlines_from_app_nl.
  destruct (universal_newlines_from_ends_nl c0 false) as [a0 Ha0]; [now left|].
  rewrite Ha0, append_assoc. apply splitlines_from_app_nl.
Qed.

Lemma text_lines_single (l : string) :
  line_clean l = true -> text_lines (l +:+ nl) = [l].
Proof.
  intros H. rewrite <- (append_empty_r (l +:+ nl)), append_assoc.
  now rewrite text_lines_cons.
Qed.

(** ** The second-line suffix of [text_parsing_demo] *)

Lemma len_insert (i : nat) (x : string) (lines : list string) :
  len (<[i := x]> lines) = len lines.
Proof. unfold len. now rewrite length_insert. Qed.

Lemma nth_1_insert (x : string) (lines : list string) :
  2 <= len lines -> nth 1 (<[1%nat := x]> lines) EmptyString = x.
Proof.
  unfold len. destruct lines as [|a [|b t]]; simpl; intros H; try lia.
  reflexivity.
Qed.

(** C10: on a text of at least two lines the second-line block of
    [text_parsing_demo] returns lines on which a second application changes
    nothing, neither the lines nor the output: the mark is appended only
    when the second line does not end with it already, and afterwards the
    line does end with it. *)
Theorem suffix_second_line_idempotent (lines : list string) (w : world) :
  2 <= len lines ->
  exists l1 w1,
    suffix_second_line lines w = Ret l1 w1
    /\ suffix_second_line l1 w1 = Ret l1 w1
    /\ endswith (nth 1 l1 EmptyString) END_MARK = true
    /\ (endswith (nth 1 lines EmptyString) END_MARK = true -> l1 = lines /\ w1 = w)
    /\ (endswith (nth 1 lines EmptyString) END_MARK = false ->
        nth 1 l1 EmptyString = rstrip (nth 1 lines EmptyString) +:+ END_MARK).
Proof.
  intros Hlen. unfold suffix_second_line.
  assert (Hle : (2 <=? len lines) = true) by now apply Z.leb_le.
  rewrite Hle.
  destruct (endswith (nth 1 lines EmptyString) END_MARK) eqn:He; simpl.
  - exists lines, w. rewrite Hle, He. simpl. repeat split; try easy.
  - eexists _, _. split; [reflexivity|].
    rewrite len_insert, Hle, (nth_1_insert _ _ Hlen), endswith_app. simpl.
    repeat split; try easy.
Qed.

Lemma suffix_second_line_idempotent_witness :
  exists l1 w1,
    suffix_second_line ["a"; "b  "] (world0 [] ∅) = Ret l1 w1
    /\ suffix_second_line l1 w1 = Ret l1 w1
    /\ endswith (nth 1 l1 EmptyString) END_MARK = true
    /\ (endswith "b  " END_MARK = true -> l1 = ["a"; "b  "] /\ w1 = world0 [] ∅)
    /\ (endswith "b  " END_MARK = false -> nth 1 l1 EmptyString = "b -- END").
Proof.
  apply (suffix_second_line_idempotent ["a"; "b  "] (world0 [] ∅)).
  unfold len. simpl. lia.
Defined.

(** ** Appending a line *)

Lemma append_text_to_file_eq (text : string) (w : world) :
  append_text_to_file text w
  = Ret tt (emit (Write ("Appended your text to " +:+ TMP_FILE +:+ nl))
              (set_fs (<[TMP_FILE := default EmptyString (fs w !! TMP_FILE)
                                      +:+ (text +:+ nl)]> (fs w)) w)).
Proof. reflexivity. Qed.

(** On a file whose text ends with a line feed, the step adds the given
    text as one more line, the last one. *)
Lemma append_text_adds_line (text c0 : string) (w : world) :
  fs w !! TMP_FILE = Some (c0 +:+ nl) ->
  line_clean text = true ->
  exists w', append_text_to_file text w = Ret tt w'
    /\ file_lines TMP_FILE w' = Some (text_lines (c0 +:+ nl) ++ [text]).
Proof.
  intros Hf Hc. eexists. split; [apply append_text_to_file_eq|].
  unfold file_lines. cbn [fs emit set_fs]. rewrite lookup_insert_eq, Hf.
  cbn [default fmap option_fmap option_map id].
  rewrite text_lines_app_nl. now rewrite (text_lines_single text Hc).
Qed.

(** C6, amended: when the scratch file has exactly two lines and its text
    ends with a line feed, appending the text hello gives a file of three
    lines, the two of before followed by the line hello. *)
Theorem append_hello_adds_last_line (w : world) (c0 : string) :
  fs w !! TMP_FILE = Some (c0 +:+ nl) ->
  length (text_lines (c0 +:+ nl)) = 2%nat ->
  exists w' lines',
    append_text_to_file "hello" w = Ret tt w'
    /\ file_lines TMP_FILE w' = Some lines'
    /\ lines' = text_lines (c0 +:+ nl) ++ ["hello"]
    /\ length lines' = 3%nat
    /\ last lines' = Some "hello".
Proof.
  intros Hf Hn.
  destruct (append_text_adds_line "hello" c0 w Hf eq_refl) as [w' [Hr Hl]].
  exists w', (text_lines (c0 +:+ nl) ++ ["hello"]).
  repeat split; try assumption.
  - rewrite length_app, Hn. reflexivity.
  - apply last_snoc.
Qed.

Lemma append_hello_adds_last_line_witness :
  exists w' lines',
    append_text_to_file "hello" (world0 [] two_lines_terminated) = Ret tt w'
    /\ file_lines TMP_FILE w' = Some lines'
    /\ lines' = text_lines (("a" +:+ nl +:+ "b") +:+ nl) ++ ["hello"]
    /\ length lines' = 3%nat
    /\ last lines' = Some "hello".
Proof.
  apply (append_hello_adds_last_line (world0 [] two_lines_terminated)
           ("a" +:+ nl +:+ "b")).
  - reflexivity.
  - reflexivity.
Defined.

(** C6 as stated fails on a two-line file whose last line has no line feed
    after it: the text joins that line, and the count stays two. *)
Lemma append_hello_joins_unterminated_line :
  file_lines TMP_FILE (world0 [] two_lines_unterminated) = Some ["a"; "b"]
  /\ exists w',
       append_text_to_file "hello" (world0 [] two_lines_unterminated) = Ret tt w'
       /\ file_lines TMP_FILE w' = Some ["a"; "bhello"].
Proof.
  split; [reflexivity|]. eexists. split; reflexivity.
Qed.

(** ** Prepending a number to the second line *)

Lemma input_line (prompt s : string) (rest : list ascii) (w : world) :
  read_line (stdin w) = Line s rest ->
  input prompt w = Ret s (set_stdin rest (emit (Write prompt) w)).
Proof. intros H. unfold input, bind, write. cbn [stdin emit]. now rewrite H. Qed.

Lemma prepend_prompt_seven (fuel : nat) (rest : list ascii) (w : world) :
  stdin w = keys_of "7" ++ LF :: rest ->
  prepend_prompt_loop (S fuel) w
  = Ret (Some "7") (set_stdin rest (emit (Write prepend_prompt) w)).
Proof.
  intros H. cbn [prepend_prompt_loop].
  rewrite (bind_Ret _ _ _ _ _ (input_line prepend_prompt "7" rest w
                                 ltac:(rewrite H; reflexivity))).
  reflexivity.
Qed.

Lemma pad_to_two_clean (ls : list string) :
  Forall (fun l => line_clean l = true) ls ->
  Forall (fun l => line_clean l = true) (pad_to_two ls).
Proof.
  intros H. unfold pad_to_two. apply Forall_app. split; [assumption|].
  apply Forall_replicate. reflexivity.
Qed.

Lemma prepended_clean (num_str content : string) :
  line_clean num_str = true ->
  Forall (fun l => line_clean l = true) (prepended num_str content).
Proof.
  intros Hn. unfold prepended.
  pose proof (pad_to_two_clean _ (text_lines_clean content)) as Hp.
  apply Forall_insert; [assumption|].
  rewrite !line_clean_app, Hn. simpl.
  destruct (pad_to_two (text_lines content)) as [|a [|b t]]; simpl; try reflexivity.
  inversion Hp as [|? ? _ Hp']; subst. now inversion Hp'.
Qed.

Lemma prepended_nonempty (num_str content : string) :
  prepended num_str content <> [].
Proof.
  unfold prepended, pad_to_two.
  destruct (text_lines content) as [|a [|b t]]; discriminate.
Qed.

(** C7: with the line 7 typed at the prompt, the function returns and the
    file then reads as the lines of before with the text 7 and a space in
    front of the second line; a second line abc becomes 7 abc, and a file
    of one line gets a second line made of 7 and a space, that is, the
    number in front of a blank line created for it. *)
Theorem prepend_seven_to_second_line
    (fuel : nat) (w : world) (content : string) (rest : list ascii) :
  fs w !! TMP_FILE = Some content ->
  stdin w = keys_of "7" ++ LF :: rest ->
  exists w' lines',
    prepend_number_to_second_line (S fuel) w = Ret tt w'
    /\ stdin w' = rest
    /\ file_lines TMP_FILE w' = Some lines'
    /\ (forall first tail, text_lines content = first :: "abc" :: tail ->
          lines' = first :: "7 abc" :: tail)
    /\ (forall first, text_lines content = [first] -> lines' = [first; "7 "])
    /\ (forall first second tail, text_lines content = first :: second :: tail ->
          lines' = first :: ("7 " +:+ second) :: tail).
Proof.
  intros Hf Hin.
  exists (emit (Write ("Prepended number to the second line of " +:+ TMP_FILE
                       +:+ "." +:+ nl))
            (set_fs (<[TMP_FILE := join nl (prepended "7" content) +:+ nl]> (fs w))
               (set_stdin rest (emit (Write prepend_prompt) w)))),
         (prepended "7" content).
  split; [|split; [reflexivity|split]].
  - unfold prepend_number_to_second_line.
    rewrite (bind_Ret _ _ _ _ _ (prepend_prompt_seven fuel rest w Hin)).
    unfold bind, read_text. cbn [fs set_stdin emit]. rewrite Hf. reflexivity.
  - unfold file_lines. cbn [fs emit set_fs]. rewrite lookup_insert_eq.
    cbn [fmap option_fmap option_map]. f_equal.
    apply text_lines_join; [apply prepended_nonempty|now apply prepended_clean].
  - unfold prepended, pad_to_two.
    repeat split; intros; rewrite H; simpl; rewrite ?app_nil_r; reflexivity.
Qed.

Lemma prepend_seven_to_second_line_witness :
  exists w' lines',
    prepend_number_to_second_line 1
      (world0 (keys_of "7" ++ [LF]) second_line_abc) = Ret tt w'
    /\ stdin w' = []
    /\ file_lines TMP_FILE w' = Some lines'
    /\ (forall first tail,
          text_lines ("head" +:+ nl +:+ "abc" +:+ nl) = first :: "abc" :: tail ->
          lines' = first :: "7 abc" :: tail)
    /\ (forall first, text_lines ("head" +:+ nl +:+ "abc" +:+ nl) = [first] ->
          lines' = [first; "7 "])
    /\ (forall first second tail,
          text_lines ("head" +:+ nl +:+ "abc" +:+ nl) = first :: second :: tail ->
          lines' = first :: ("7 " +:+ second) :: tail).
Proof.
  apply (prepend_seven_to_second_line 0
           (world0 (keys_of "7" ++ [LF]) second_line_abc)
           ("head" +:+ nl +:+ "abc" +:+ nl) []).
  - reflexivity.
  - reflexivity.
Defined.

Example prepend_seven_abc :
  lines_after TMP_FILE
    (prepend_number_to_second_line 1
       (world0 (keys_of "7" ++ [LF]) second_line_abc))
  = Some ["head"; "7 abc"].
Proof. vm_compute. reflexivity. Qed.

Example prepend_seven_one_line :
  lines_after TMP_FILE
    (prepend_number_to_second_line 1
       (world0 (keys_of "7" ++ [LF]) {[ TMP_FILE := "only" ]}))
  = Some ["only"; "7 "].
Proof. vm_compute. reflexivity. Qed.

(** ** The marker file *)

(** On a command text without NUL [capture_bash_output] returns: a
    failing command is reported and gives the empty string.  Its one line
    of output is no branch notice. *)
Lemma capture_bash_output_returns (cmd : string) (w : world) :
  has_char NUL cmd = false ->
  exists out line,
    capture_bash_output cmd w = Ret out (emit (Write line) (tick_shell w))
    /\ branch_of (Write line) = None.
Proof.
  intros Hnul.
  unfold capture_bash_output, try_except, check_output, bind, run_shell.
  rewrite Hnul.
  destruct (shell w (shell_calls w) cmd) as [rc out] eqn:E. simpl.
  destruct (rc =? 0); simpl.
  - exists out. eexists. split; reflexivity.
  - exists EmptyString. eexists. split; reflexivity.
Qed.

Lemma path_exists_eq (p : string) (w : world) :
  path_exists p w = Ret (bool_decide (is_Some (fs w !! p))) w.
Proof. reflexivity. Qed.

(** With the marker absent the step creates it and announces branch B. *)
Lemma marker_file_demo_absent (w : world) :
  fs w !! MARKER_FILE = None ->
  marker_file_demo w
  = Ret tt (emit (Write created_notice)
              (set_fs (<[MARKER_FILE := "marker" +:+ nl]> (fs w))
                 (emit (Write (branch_B_notice +:+ nl)) w))).
Proof.
  intros H. unfold marker_file_demo, bind. rewrite path_exists_eq, H.
  rewrite bool_decide_eq_false_2 by (intros [? ?]; discriminate).
  reflexivity.
Qed.

(** With the marker present the step announces branch A and writes no
    file. *)
Lemma marker_file_demo_present (w : world) :
  is_Some (fs w !! MARKER_FILE) ->
  exists w' tail,
    marker_file_demo w = Ret tt w'
    /\ fs w' = fs w
    /\ stdout w' = stdout w ++ Write (branch_A_notice +:+ nl) :: tail
    /\ branches_taken tail = [].
Proof.
  intros H. unfold marker_file_demo, bind. rewrite path_exists_eq.
  rewrite bool_decide_eq_true_2 by assumption. cbn [print print_end write].
  destruct (capture_bash_output_returns "date"
              (emit (Write (branch_A_notice +:+ nl)) w) eq_refl)
    as [out [line [Hc Hb]]].
  rewrite Hc. eexists _, [Write line; _].
  split; [reflexivity|]. split; [reflexivity|]. split.
  - cbn [stdout emit tick_shell]. now rewrite <- !app_assoc.
  - unfold branches_taken. cbn [omap list_omap]. rewrite Hb. reflexivity.
Qed.

(** C8: with the marker absent the step creates the marker and takes
    branch B (and no other); with the marker present it takes branch A (and
    no other) and leaves the files as they are; so two runs in a row that
    start without the marker take branch B and then branch A, once each. *)
Theorem marker_file_demo_branches (w : world) :
  fs w !! MARKER_FILE = None ->
  exists w1 w2 out1 out2,
    marker_file_demo w = Ret tt w1
    /\ is_Some (fs w1 !! MARKER_FILE)
    /\ stdout w1 = stdout w ++ out1
    /\ branches_taken out1 = [BranchB]
    /\ marker_file_demo w1 = Ret tt w2
    /\ fs w2 = fs w1
    /\ stdout w2 = stdout w1 ++ out2
    /\ branches_taken out2 = [BranchA]
    /\ branches_taken (out1 ++ out2) = [BranchB; BranchA].
Proof.
  intros H.
  pose proof (marker_file_demo_absent w H) as H1.
  set (w1 := emit (Write created_notice)
               (set_fs (<[MARKER_FILE := "marker" +:+ nl]> (fs w))
                  (emit (Write (branch_B_notice +:+ nl)) w))) in *.
  assert (Hs : is_Some (fs w1 !! MARKER_FILE)).
  { unfold w1. cbn [fs emit set_fs]. rewrite lookup_insert_eq. eauto. }
  destruct (marker_file_demo_present w1 Hs) as [w2 [tail [H2 [Hfs [Hout Hb]]]]].
  exists w1, w2, [Write (branch_B_notice +:+ nl); Write created_notice],
    (Write (branch_A_notice +:+ nl) :: tail).
  assert (HB : branches_taken [Write (branch_B_notice +:+ nl); Write created_notice]
               = [BranchB]) by (vm_compute; reflexivity).
  assert (HA : branches_taken (Write (branch_A_notice +:+ nl) :: tail) = [BranchA]).
  { unfold branches_taken in *. cbn [omap list_omap]. rewrite Hb.
    vm_compute. reflexivity. }
  repeat split; try assumption.
  - unfold w1. cbn [stdout emit set_fs]. now rewrite <- app_assoc.
  - unfold branches_taken in *. rewrite omap_app, HB, HA. reflexivity.
Qed.

Lemma marker_file_demo_branches_witness :
  exists w1 w2 out1 out2,
    marker_file_demo (world0 [] ∅) = Ret tt w1
    /\ is_Some (fs w1 !! MARKER_FILE)
    /\ stdout w1 = stdout (world0 [] ∅) ++ out1
    /\ branches_taken out1 = [BranchB]
    /\ marker_file_demo w1 = Ret tt w2
    /\ fs w2 = fs w1
    /\ stdout w2 = stdout w1 ++ out2
    /\ branches_taken out2 = [BranchA]
    /\ branches_taken (out1 ++ out2) = [BranchB; BranchA].
Proof.
  apply (marker_file_demo_branches (world0 [] ∅)). reflexivity.
Defined.

(** ** The yes/no prompt *)

Lemma key_tests (c : ascii) :
  (ord c =? 3) = Ascii.eqb c CTRL_C
  /\ String.eqb (lower (String c EmptyString)) "y" = key_yes c
  /\ (String.eqb (lower (String c EmptyString)) "n" || (ord c =? 27)) = key_no c
  /\ (ord c =? 27) = Ascii.eqb c ESC.
Proof.
  destruct c as [[] [] [] [] [] [] [] []]; vm_compute; repeat split.
Qed.

(** One turn of the loop on the key [c]. *)
Lemma ask_yes_no_loop_key (fuel : nat) (w : world) (c : ascii) (rest : list ascii) :
  stdin w = c :: rest ->
  ask_yes_no_loop (S fuel) w
  = if Ascii.eqb c CTRL_C then Raise KeyboardInterrupt (after_key w)
    else if key_yes c then Ret true (emit (echo c) (after_key w))
    else if key_no c then Ret false (emit (echo c) (after_key w))
    else ask_yes_no_loop fuel (emit (Write guidance) (emit (echo c) (after_key w))).
Proof.
  intros H. cbn [ask_yes_no_loop]. unfold bind at 1.
  rewrite get_single_key_eq. unfold key_result. rewrite H.
  destruct (key_tests c) as [H3 [Hy [Hn _]]]. rewrite H3.
  destruct (Ascii.eqb c CTRL_C); [reflexivity|].
  unfold bind, write. rewrite Hy. destruct (key_yes c); [reflexivity|].
  rewrite <- Hn.
  destruct (String.eqb (lower (String c EmptyString)) "n"); [reflexivity|].
  cbn [orb]. destruct (ord c =? 27); reflexivity.
Qed.

(** One turn of the loop at the end of input: the empty read is echoed as
    a bare newline and the loop goes on. *)
Lemma ask_yes_no_loop_eof (fuel : nat) (w : world) :
  stdin w = [] ->
  ask_yes_no_loop (S fuel) w
  = ask_yes_no_loop fuel (emit (Write guidance) (emit (Write nl) (after_key w))).
Proof.
  intros H. cbn [ask_yes_no_loop]. unfold bind at 1.
  rewrite get_single_key_eq. unfold key_result. rewrite H. reflexivity.
Qed.

Lemma rejected_inv (c : ascii) :
  rejected c = true ->
  Ascii.eqb c CTRL_C = false /\ key_yes c = false /\ key_no c = false.
Proof.
  unfold rejected, accepting. intros H.
  apply andb_prop in H as [H1 H2]. apply negb_true_iff in H1, H2.
  apply orb_false_elim in H1 as [? ?]. auto.
Qed.

Lemma accepting_not_interrupt (k : ascii) :
  accepting k = true -> Ascii.eqb k CTRL_C = false.
Proof.
  destruct (Ascii.eqb_spec k CTRL_C) as [->|]; [discriminate|reflexivity].
Qed.

(** The loop on a run of rejected keys: every key is echoed and answered
    by the guidance text, and the loop is then where it was, with that much
    less fuel. *)
Lemma ask_yes_no_loop_rejected (pre : list ascii) : forall fuel w tail,
  Forall (fun c => rejected c = true) pre ->
  stdin w = pre ++ tail ->
  exists w1,
    ask_yes_no_loop (length pre + fuel) w = ask_yes_no_loop fuel w1
    /\ stdin w1 = tail
    /\ stdout w1 = stdout w ++ echoes pre
    /\ tty_attr w1 = tty_attr w
    /\ fs w1 = fs w.
Proof.
  induction pre as [|c pre IH]; intros fuel w tail Hrej Hin.
  - exists w. simpl. rewrite app_nil_r. auto.
  - inversion Hrej as [|? ? Hc Hpre]; subst.
    destruct (rejected_inv c Hc) as [H3 [Hy Hn]].
    cbn [length Nat.add].
    rewrite (ask_yes_no_loop_key _ w c (pre ++ tail) Hin), H3, Hy, Hn.
    destruct (IH fuel (emit (Write guidance) (emit (echo c) (after_key w))) tail Hpre)
      as [w1 [Hrun [Hs [Ho [Ht Hf]]]]].
    { cbn [stdin emit]. now rewrite after_key_stdin, Hin. }
    exists w1. split; [assumption|]. split; [assumption|].
    split; [|split; assumption].
    rewrite Ho. cbn [stdout emit echoes flat_map].
    rewrite after_key_stdout, <- !app_assoc. reflexivity.
Qed.

Lemma ask_yes_no_eq (fuel : nat) (question : string) (w : world) :
  ask_yes_no fuel question w = ask_yes_no_loop fuel (emit (Write question) w).
Proof. reflexivity. Qed.

Lemma ask_yes_no_loop_starves (fuel : nat) : forall w,
  Forall (fun c => rejected c = true) (stdin w) ->
  ask_yes_no_loop fuel w = OutOfFuel.
Proof.
  induction fuel as [|fuel IH]; intros w H; [reflexivity|].
  destruct (stdin w) as [|c rest] eqn:E.
  - rewrite (ask_yes_no_loop_eof _ _ E). apply IH.
    cbn [stdin emit]. rewrite after_key_stdin, E. constructor.
  - inversion H as [|? ? Hc Hrest]; subst.
    destruct (rejected_inv c Hc) as [H3 [Hy Hn]].
    rewrite (ask_yes_no_loop_key _ _ _ _ E), H3, Hy, Hn. apply IH.
    cbn [stdin emit]. now rewrite after_key_stdin, E.
Qed.

(** C4, amended: on keys of which none before the first accepting one is
    Ctrl-C, [ask_yes_no] returns at the first accepting key, true when that
    key is y or Y and false when it is n, N or Escape; every key taken, the
    accepting one included, is echoed with a newline after it, and every
    key taken before is answered by the guidance text and one more read.
    On keys that are all rejected the function never returns, whatever the
    fuel.  A Ctrl-C met before any accepting key is neither echoed nor
    answered: the function raises KeyboardInterrupt there. *)
Theorem ask_yes_no_first_accepting_key (question : string) (w : world) :
  (forall pre k rest fuel,
      Forall (fun c => rejected c = true) pre ->
      accepting k = true ->
      stdin w = pre ++ k :: rest ->
      (length pre < fuel)%nat ->
      exists w',
        ask_yes_no fuel question w = Ret (key_yes k) w'
        /\ key_yes k = negb (key_no k)
        /\ stdin w' = rest
        /\ stdout w' = stdout w ++ Write question :: echoes pre ++ [echo k]
        /\ tty_attr w' = tty_attr w)
  /\ (Forall (fun c => rejected c = true) (stdin w) ->
      forall fuel, ask_yes_no fuel question w = OutOfFuel)
  /\ (forall pre rest fuel,
      Forall (fun c => rejected c = true) pre ->
      stdin w = pre ++ CTRL_C :: rest ->
      (length pre < fuel)%nat ->
      exists w',
        ask_yes_no fuel question w = Raise KeyboardInterrupt w'
        /\ stdin w' = rest
        /\ stdout w' = stdout w ++ Write question :: echoes pre
        /\ tty_attr w' = tty_attr w).
Proof.
  split; [|split].
  - intros pre k rest fuel Hpre Hk Hin Hfuel.
    replace fuel with (length pre + S (fuel - S (length pre)))%nat by lia.
    rewrite ask_yes_no_eq.
    destruct (ask_yes_no_loop_rejected pre (S (fuel - S (length pre)))
                (emit (Write question) w) (k :: rest) Hpre Hin)
      as [w1 [Hrun [Hs [Ho [Ht Hf]]]]].
    rewrite Hrun, (ask_yes_no_loop_key _ _ _ _ Hs), (accepting_not_interrupt k Hk).
    exists (emit (echo k) (after_key w1)).
    unfold accepting in Hk.
    assert (Hex : key_yes k = negb (key_no k)).
    { revert Hk. clear. destruct k as [[] [] [] [] [] [] [] []]; vm_compute;
        intros H; try reflexivity; discriminate H. }
    split; [|split; [assumption|split; [|split]]].
    + destruct (key_yes k); [reflexivity|]. simpl in Hk. now rewrite Hk.
    + cbn [stdin emit]. now rewrite after_key_stdin, Hs.
    + cbn [stdout emit]. rewrite after_key_stdout, Ho. cbn [stdout emit].
      rewrite <- !app_assoc. reflexivity.
    + cbn [tty_attr emit]. now rewrite after_key_tty_attr, Ht.
  - intros H fuel. rewrite ask_yes_no_eq. now apply ask_yes_no_loop_starves.
  - intros pre rest fuel Hpre Hin Hfuel.
    replace fuel with (length pre + S (fuel - S (length pre)))%nat by lia.
    rewrite ask_yes_no_eq.
    destruct (ask_yes_no_loop_rejected pre (S (fuel - S (length pre)))
                (emit (Write question) w) (CTRL_C :: rest) Hpre Hin)
      as [w1 [Hrun [Hs [Ho [Ht Hf]]]]].
    rewrite Hrun, (ask_yes_no_loop_key _ _ _ _ Hs). cbn [Ascii.eqb].
    exists (after_key w1). split; [reflexivity|]. split; [|split].
    + now rewrite after_key_stdin, Hs.
    + rewrite after_key_stdout, Ho. cbn [stdout emit].
      rewrite <- !app_assoc. reflexivity.
    + now rewrite after_key_tty_attr, Ht.
Qed.

Lemma ask_yes_no_first_accepting_key_witness :
  exists w',
    ask_yes_no 3 "Go on? " (world0 (keys_of "xQy!") ∅) = Ret (key_yes "y") w'
    /\ key_yes "y" = negb (key_no "y")
    /\ stdin w' = keys_of "!"
    /\ stdout w'
       = stdout (world0 (keys_of "xQy!") ∅)
         ++ Write "Go on? " :: echoes (keys_of "xQ") ++ [echo "y"]
    /\ tty_attr w' = tty_attr (world0 (keys_of "xQy!") ∅).
Proof.
  apply (proj1 (ask_yes_no_first_accepting_key "Go on? "
                  (world0 (keys_of "xQy!") ∅))
           (keys_of "xQ") "y"%char (keys_of "!") 3%nat).
  - repeat constructor.
  - reflexivity.
  - reflexivity.
  - simpl. lia.
Defined.

(** C4 as stated fails on the keys Ctrl-C, y: the first accepting key is
    y, yet the function does not return true; it raises at the Ctrl-C,
    which gets no echo and no guidance, and the y is never read. *)
Lemma ask_yes_no_interrupt_before_yes :
  let o := ask_yes_no 5 "Go on? " (world0 [CTRL_C; "y"%char] ∅) in
  raises o KeyboardInterrupt
  /\ stdout_after o = Some [Write "Go on? "]
  /\ stdin_after o = Some ["y"%char].
Proof. vm_compute. repeat split. Qed.

(** ** The menu *)

Lemma emits_stdout (es : list out_event) : forall w,
  stdout (emits es w) = stdout w ++ es.
Proof.
  induction es as [|e es IH]; intros w; simpl; [now rewrite app_nil_r|].
  rewrite IH. cbn [stdout emit]. now rewrite <- app_assoc.
Qed.

Lemma emits_stdin (es : list out_event) : forall w, stdin (emits es w) = stdin w.
Proof. induction es as [|e es IH]; intros w; simpl; [reflexivity|now rewrite IH]. Qed.

Lemma emits_fs (es : list out_event) : forall w, fs (emits es w) = fs w.
Proof. induction es as [|e es IH]; intros w; simpl; [reflexivity|now rewrite IH]. Qed.

Lemma emits_tty_attr (es : list out_event) : forall w,
  tty_attr (emits es w) = tty_attr w.
Proof. induction es as [|e es IH]; intros w; simpl; [reflexivity|now rewrite IH]. Qed.

Lemma for_each_print {A} (f : A -> string) (l : list A) : forall w,
  for_each l (fun x => print (f x)) w
  = Ret tt (emits (map (fun x => Write (f x +:+ nl)) l) w).
Proof.
  induction l as [|x l IH]; intros w; [reflexivity|].
  cbn [for_each]. unfold bind at 1. cbn [print print_end write]. now rewrite IH.
Qed.

Lemma menu_from_file_eq (fuel : nat) (w : world) (content : string) :
  fs w !! TMP_FILE = Some content ->
  menu_items content <> [] ->
  menu_from_file fuel w
  = menu_loop fuel (menu_items content) (Z.min 9 (len (menu_items content)))
      (menu_shown (menu_items content) w).
Proof.
  intros Hf Hne. unfold menu_from_file, bind at 1, read_text. rewrite Hf.
  fold (text_lines content). fold (menu_items content).
  destruct (menu_items content) as [|i0 items] eqn:E; [easy|].
  unfold bind at 1. cbn [print print_end write].
  unfold bind at 1. rewrite for_each_print. reflexivity.
Qed.

(** One turn of the menu loop on the key [c]. *)
Lemma menu_loop_key (fuel : nat) (items : list string) (mx : Z) (w : world)
    (c : ascii) (rest : list ascii) :
  stdin w = c :: rest ->
  menu_loop (S fuel) items mx w
  = if ord c =? 3 then Raise KeyboardInterrupt (after_key w)
    else if ord c =? 27 then Ret None (emit menu_cancelled (after_key w))
    else if isdigit (String c EmptyString) then
      match int (String c EmptyString) with
      | None => Raise ValueError (after_key w)
      | Some n =>
          if (1 <=? n) && (n <=? mx)
          then let choice := nth (Z.to_nat (n - 1)) items EmptyString in
               Ret (Some choice) (emit (menu_selected choice) (after_key w))
          else menu_loop fuel items mx (emit menu_reprompt (after_key w))
      end
    else menu_loop fuel items mx (emit menu_reprompt (after_key w)).
Proof.
  intros H. cbn [menu_loop]. unfold bind at 1.
  rewrite get_single_key_eq. unfold key_result. rewrite H.
  destruct (ord c =? 3); [reflexivity|].
  destruct (ord c =? 27); [reflexivity|].
  destruct (isdigit (String c EmptyString)); [|reflexivity].
  destruct (int (String c EmptyString)) as [n|]; [|reflexivity].
  destruct ((1 <=? n) && (n <=? mx)); reflexivity.
Qed.

Lemma digit_key_tests (d : Z) :
  0 <= d <= 9 ->
  (ord (digit_key d) =? 3) = false
  /\ (ord (digit_key d) =? 27) = false
  /\ isdigit (String (digit_key d) EmptyString) = true
  /\ int (String (digit_key d) EmptyString) = Some d.
Proof.
  intros H.
  assert (Hd : d = 0 \/ d = 1 \/ d = 2 \/ d = 3 \/ d = 4 \/ d = 5 \/ d = 6
               \/ d = 7 \/ d = 8 \/ d = 9) by lia.
  repeat (destruct Hd as [->|Hd]; [vm_compute; repeat split|]).
  subst. vm_compute. repeat split.
Qed.

Example digit_key_3 : digit_key 3 = "3"%char.
Proof. reflexivity. Qed.

Lemma menu_loop_eof (fuel : nat) (items : list string) (mx : Z) (w : world) :
  stdin w = [] ->
  menu_loop (S fuel) items mx w
  = menu_loop fuel items mx (emit menu_reprompt (after_key w)).
Proof.
  intros H. cbn [menu_loop]. unfold bind at 1.
  rewrite get_single_key_eq. unfold key_result. rewrite H. reflexivity.
Qed.

Lemma nth_lookup_in_range (items : list string) (i : nat) :
  (i < length items)%nat -> items !! i = Some (nth i items EmptyString).
Proof.
  intros H. destruct (lookup_lt_is_Some_2 items i H) as [x Hx].
  now rewrite nth_lookup, Hx.
Qed.

(** Whatever the keys, a selection the loop returns is one of the first
    [mx] items. *)
Lemma menu_loop_choice_in_range (fuel : nat) : forall items mx w choice w',
  mx <= len items ->
  menu_loop fuel items mx w = Ret (Some choice) w' ->
  exists i, (i < Z.to_nat mx)%nat /\ items !! i = Some choice.
Proof.
  induction fuel as [|fuel IH]; intros items mx w choice w' Hmx Hrun;
    [discriminate Hrun|].
  destruct (stdin w) as [|c rest] eqn:E.
  - rewrite (menu_loop_eof _ _ _ _ E) in Hrun. eauto.
  - rewrite (menu_loop_key _ _ _ _ _ _ E) in Hrun.
    destruct (ord c =? 3); [discriminate Hrun|].
    destruct (ord c =? 27); [discriminate Hrun|].
    destruct (isdigit (String c EmptyString)); [|eauto].
    destruct (int (String c EmptyString)) as [n|]; [|discriminate Hrun].
    destruct ((1 <=? n) && (n <=? mx)) eqn:Hr; [|eauto].
    apply andb_prop in Hr as [H1 H2]. apply Z.leb_le in H1, H2.
    cbn zeta in Hrun. injection Hrun as <- _.
    exists (Z.to_nat (n - 1)). split; [lia|].
    apply nth_lookup_in_range. unfold len in Hmx. lia.
Qed.

(** C5: when the file offers [n >= 1] items, [menu_from_file] shows one
    row for each of the first [min 9 n] and enters its loop.  At every turn
    of the loop, the digit key [d] with [1 <= d <= min 9 n] returns the
    item of index [d - 1]; Escape returns no selection; a digit key out of
    that range returns nothing: the prompt is repeated and the loop takes
    its next turn; and whatever the keys, a selection returned is one of
    the first nine items. *)
Theorem menu_from_file_selection (w : world) (content : string) :
  fs w !! TMP_FILE = Some content ->
  menu_items content <> [] ->
  let items := menu_items content in
  let mx := Z.min 9 (len items) in
  let w1 := menu_shown items w in
  (forall fuel, menu_from_file fuel w = menu_loop fuel items mx w1)
  /\ stdin w1 = stdin w
  /\ stdout w1 = stdout w ++ Write (menu_header +:+ nl) :: menu_rows items
  /\ len (menu_rows items) = mx
  /\ mx <= 9
  /\ (forall v d rest fuel,
        1 <= d <= mx -> stdin v = digit_key d :: rest ->
        exists choice v',
          menu_loop (S fuel) items mx v = Ret (Some choice) v'
          /\ items !! Z.to_nat (d - 1) = Some choice
          /\ stdin v' = rest)
  /\ (forall v rest fuel,
        stdin v = ESC :: rest ->
        exists v', menu_loop (S fuel) items mx v = Ret None v' /\ stdin v' = rest)
  /\ (forall v d rest fuel,
        0 <= d <= 9 -> ~ (1 <= d <= mx) -> stdin v = digit_key d :: rest ->
        exists v2,
          menu_loop (S fuel) items mx v = menu_loop fuel items mx v2
          /\ stdin v2 = rest
          /\ stdout v2 = stdout v ++ [menu_reprompt])
  /\ (forall fuel choice w',
        menu_from_file fuel w = Ret (Some choice) w' ->
        exists i, (i < 9)%nat /\ items !! i = Some choice).
Proof.
  intros Hf Hne items mx w1.
  assert (Heq : forall fuel, menu_from_file fuel w = menu_loop fuel items mx w1)
    by (intros fuel; now apply menu_from_file_eq).
  split; [exact Heq|]. split; [apply emits_stdin|]. split; [apply emits_stdout|].
  split; [unfold menu_rows, len; rewrite length_map, length_seq; fold mx;
          unfold mx, len; lia|].
  split; [unfold mx; lia|].
  split; [|split; [|split]].
  - intros v d rest fuel Hd Hs.
    destruct (digit_key_tests d) as [H3 [H27 [Hdig Hint]]]; [unfold mx in Hd; lia|].
    rewrite (menu_loop_key _ _ _ _ (digit_key d) rest Hs).
    rewrite H3, H27, Hdig, Hint.
    replace ((1 <=? d) && (d <=? mx)) with true
      by (symmetry; apply andb_true_intro; split; apply Z.leb_le; lia).
    cbn zeta. eexists _, _. split; [reflexivity|]. split.
    + apply nth_lookup_in_range. unfold mx, len in Hd. lia.
    + cbn [stdin emit]. rewrite after_key_stdin, Hs. reflexivity.
  - intros v rest fuel Hs.
    rewrite (menu_loop_key _ _ _ _ ESC rest Hs).
    change (ord ESC =? 3) with false. change (ord ESC =? 27) with true.
    eexists. split; [reflexivity|].
    cbn [stdin emit]. rewrite after_key_stdin, Hs. reflexivity.
  - intros v d rest fuel Hd Hout Hs.
    destruct (digit_key_tests d Hd) as [H3 [H27 [Hdig Hint]]].
    rewrite (menu_loop_key _ _ _ _ (digit_key d) rest Hs).
    rewrite H3, H27, Hdig, Hint.
    replace ((1 <=? d) && (d <=? mx)) with false.
    2:{ symmetry. apply andb_false_iff.
        destruct (Z.leb_spec 1 d); [right; apply Z.leb_gt; lia|now left]. }
    eexists. split; [reflexivity|]. split.
    + cbn [stdin emit]. rewrite after_key_stdin, Hs. reflexivity.
    + cbn [stdout emit]. now rewrite after_key_stdout.
  - intros fuel choice w' Hrun. rewrite Heq in Hrun.
    destruct (menu_loop_choice_in_range fuel items mx w1 choice w')
      as [i [Hi Hl]]; [unfold mx; lia|assumption|].
    exists i. split; [unfold mx in Hi; lia|assumption].
Qed.

Example menu_five_press_3 :
  match menu_from_file 1 (world0 (keys_of "3") five_items) with
  | Ret choice _ => choice = Some "three"
  | _ => False
  end.
Proof. vm_compute. reflexivity. Qed.

Example menu_five_press_9 :
  menu_from_file 1 (world0 (keys_of "9") five_items) = OutOfFuel
  /\ match menu_from_file 2 (world0 (keys_of "92") five_items) with
     | Ret choice _ => choice = Some "two"
     | _ => False
     end.
Proof. vm_compute. split; reflexivity. Qed.

Example menu_five_press_escape :
  match menu_from_file 1 (world0 [ESC] five_items) with
  | Ret choice _ => choice = None
  | _ => False
  end.
Proof. vm_compute. reflexivity. Qed.

Lemma menu_from_file_selection_witness :
  exists choice v',
    menu_loop 1 (menu_items five_lines) (Z.min 9 (len (menu_items five_lines)))
      (menu_shown (menu_items five_lines) (world0 (keys_of "3") five_items))
    = Ret (Some choice) v'
    /\ menu_items five_lines !! Z.to_nat (3 - 1) = Some choice
    /\ stdin v' = [].
Proof.
  refine (proj1 (proj2 (proj2 (proj2 (proj2 (proj2
            (menu_from_file_selection (world0 (keys_of "3") five_items)
               five_lines _ _))))))
            (menu_shown (menu_items five_lines) (world0 (keys_of "3") five_items))
            3 [] 0%nat _ _).
  - reflexivity.
  - vm_compute. discriminate.
  - vm_compute. split; discriminate.
  - reflexivity.
Defined.

(** Eleven items: nine rows after the header, and the key 9 selects the
    ninth. *)
Example menu_eleven_items :
  match menu_from_file 1 (world0 (keys_of "9") eleven_items) with
  | Ret choice w => choice = Some "i" /\ length (stdout w) = 11%nat
  | _ => False
  end.
Proof. vm_compute. split; reflexivity. Qed.

(** ** The sequence of steps *)





Lemma display_demo_returns (kind purpose code_text : string) (wo cb : bool) (w : world) :
  exists es, display_demo kind purpose code_text wo cb w = Ret tt (emits es w).
Proof.
  unfold display_demo.
  exists ((if cb then [ClearScreen] else [])
          ++ Write (("This is the " +:+ kind +:+ " used to " +:+ purpose) +:+ nl)
          :: map (fun line => Write (("    " +:+ line) +:+ nl)) (splitlines code_text)).
  destruct cb.
  - erewrite bind_Ret by (unfold clear_screen; reflexivity).
    erewrite bind_Ret by reflexivity. rewrite for_each_print. reflexivity.
  - erewrite bind_Ret by reflexivity.
    erewrite bind_Ret by reflexivity. rewrite for_each_print. reflexivity.
Qed.

Lemma press_any_key_default_eq (w : world) :
  press_any_key_default w
  = match stdin w with
    | c :: _ => if ord c =? 3 then Raise KeyboardInterrupt (pause_world w)
                else Ret tt (pause_world w)
    | [] => Ret tt (pause_world w)
    end.
Proof.
  unfold press_any_key_default, press_any_key, try_except.
  unfold bind at 1. cbn [print_end write]. unfold bind at 1, bind at 1.
  rewrite get_single_key_eq. unfold key_result. cbn [stdin emit].
  destruct (stdin w) as [|c rest]; [reflexivity|].
  destruct (ord c =? 3); reflexivity.
Qed.


(** ** Errors inside a step *)

Lemma read_text_missing (p : string) (w : world) :
  fs w !! p = None -> read_text p w = Raise (FileNotFoundError p) w.
Proof. intros H. unfold read_text. now rewrite H. Qed.

Lemma text_parsing_demo_missing (w : world) :
  fs w !! TMP_FILE = None ->
  exists w', text_parsing_demo w = Raise (FileNotFoundError TMP_FILE) w'
             /\ fs w' = fs w.
Proof.
  intros H. unfold text_parsing_demo.
  erewrite bind_Ret by reflexivity.
  erewrite bind_Raise by (apply read_text_missing; exact H).
  eexists. split; reflexivity.
Qed.




Lemma input_eq (prompt : string) (w : world) :
  input prompt w
  = match read_line (stdin w) with
    | Line s rest => Ret s (set_stdin rest (emit (Write prompt) w))
    | Interrupted rest =>
        Raise KeyboardInterrupt (set_stdin rest (emit (Write prompt) w))
    | AtEof => Raise EOFError (emit (Write prompt) w)
    end.
Proof. reflexivity. Qed.

(** The integer prompt of the conditional block lets no Exception out. *)
Lemma conditional_input_contained (w : world) :
  (exists v w', conditional_input w = Ret v w')
  \/ (exists w', conditional_input w = Raise KeyboardInterrupt w').
Proof.
  unfold conditional_input, try_except, bind. rewrite input_eq.
  destruct (read_line (stdin w)) as [s rest| rest|].
  - destruct (int s); left; eexists _, _; reflexivity.
  - right. eexists. reflexivity.
  - left. eexists _, _. reflexivity.
Qed.

(** ** Interrupts inside a step *)





Lemma pause_world_stdin (w : world) : stdin (pause_world w) = tl (stdin w).
Proof. reflexivity. Qed.

Lemma step_intro_interrupted (w : world) (rest : list ascii) :
  stdin w = CTRL_C :: rest ->
  exists w', step_intro w = Raise KeyboardInterrupt w' /\ stdin w' = rest.
Proof.
  intros H. unfold step_intro.
  destruct (display_demo_returns "code" "show the example_var value"
              "print('example_var currently contains:', example_var)"
              true true w) as [es Hes].
  rewrite (bind_Ret _ _ _ _ _ Hes). erewrite bind_Ret by reflexivity.
  rewrite press_any_key_default_eq. cbn [stdin emit].
  rewrite emits_stdin, H. change (ord CTRL_C =? 3) with true.
  eexists. split; [reflexivity|].
  rewrite pause_world_stdin. cbn [stdin emit]. now rewrite emits_stdin, H.
Qed.

(** * Further properties of the script *)

(** ** The terminal mode over whole runs *)

Create HintDb tty.

Lemma keeps_tty_ret {A} (a : A) : keeps_tty (ret a).
Proof. intros w w' H. now inversion H. Qed.

Lemma keeps_tty_raise {A} (e : exn) : keeps_tty (@raise A e).
Proof. intros w w' H. now inversion H. Qed.

Lemma keeps_tty_bind {A B} (m : M A) (k : A -> M B) :
  keeps_tty m -> (forall a, keeps_tty (k a)) -> keeps_tty (bind m k).
Proof.
  intros Hm Hk w w' H. unfold bind in H.
  destruct (m w) as [a w1|e w1|] eqn:E; [|apply Hm; now rewrite E|discriminate H].
  rewrite (Hk a w1 w' H). apply Hm. now rewrite E.
Qed.

Lemma keeps_tty_try_except {A} (m : M A) (h : exn -> option (M A)) :
  keeps_tty m -> (forall e k, h e = Some k -> keeps_tty k) ->
  keeps_tty (try_except m h).
Proof.
  intros Hm Hh w w' H. unfold try_except in H.
  destruct (m w) as [a w1|e w1|] eqn:E; [apply Hm; now rewrite E| |discriminate H].
  destruct (h e) as [k|] eqn:Ek; [|apply Hm; now rewrite E].
  rewrite (Hh e k Ek w1 w' H). apply Hm. now rewrite E.
Qed.

Lemma keeps_tty_for_each {A} (l : list A) (f : A -> M unit) :
  (forall x, keeps_tty (f x)) -> keeps_tty (for_each l f).
Proof.
  intros Hf. induction l as [|x l IH]; cbn [for_each];
    [apply keeps_tty_ret|apply keeps_tty_bind; auto].
Qed.

Ltac keeps_tty_prim :=
  let H := fresh in
  intros ? ? H; cbv beta delta [write print print_end clear_screen input bind
    path_exists read_text write_text append_write unlink run_shell
    get_GLOBAL_VAR ret raise] in H;
  repeat case_match; cbn [final_world] in *; simplify_eq; reflexivity.

Lemma keeps_tty_write s : keeps_tty (write s).
Proof. keeps_tty_prim. Qed.

Lemma keeps_tty_print s : keeps_tty (print s).
Proof. keeps_tty_prim. Qed.

Lemma keeps_tty_print_end s e : keeps_tty (print_end s e).
Proof. keeps_tty_prim. Qed.

Lemma keeps_tty_clear_screen : keeps_tty clear_screen.
Proof. keeps_tty_prim. Qed.

Lemma keeps_tty_input prompt : keeps_tty (input prompt).
Proof. keeps_tty_prim. Qed.

Lemma keeps_tty_path_exists p : keeps_tty (path_exists p).
Proof. keeps_tty_prim. Qed.

Lemma keeps_tty_read_text p : keeps_tty (read_text p).
Proof. keeps_tty_prim. Qed.

Lemma keeps_tty_write_text p s : keeps_tty (write_text p s).
Proof. keeps_tty_prim. Qed.

Lemma keeps_tty_append_write p s : keeps_tty (append_write p s).
Proof. keeps_tty_prim. Qed.

Lemma keeps_tty_unlink p : keeps_tty (unlink p).
Proof. keeps_tty_prim. Qed.

Lemma keeps_tty_run_shell cmd : keeps_tty (run_shell cmd).
Proof. keeps_tty_prim. Qed.

Lemma keeps_tty_get_GLOBAL_VAR : keeps_tty get_GLOBAL_VAR.
Proof. keeps_tty_prim. Qed.

Lemma keeps_tty_get_single_key : keeps_tty get_single_key.
Proof.
  intros w w' H. rewrite get_single_key_eq in H. unfold key_result in H.
  repeat case_match; cbn [final_world] in *; simplify_eq; reflexivity.
Qed.

#[local] Hint Resolve keeps_tty_ret keeps_tty_raise keeps_tty_write
  keeps_tty_print keeps_tty_print_end keeps_tty_clear_screen keeps_tty_input
  keeps_tty_path_exists keeps_tty_read_text keeps_tty_write_text
  keeps_tty_append_write keeps_tty_unlink keeps_tty_run_shell
  keeps_tty_get_GLOBAL_VAR keeps_tty_get_single_key : tty.

Ltac keeps_tty_step :=
  match goal with
  | |- keeps_tty (bind _ _) => apply keeps_tty_bind; [|intros ?]
  | |- keeps_tty (try_except _ _) =>
      let Hh := fresh in
      apply keeps_tty_try_except;
      [|intros [] ? Hh; cbn [on_KeyboardInterrupt on_Exception] in Hh;
        simplify_eq]
  | |- keeps_tty (for_each _ _) => apply keeps_tty_for_each; intros ?
  | |- keeps_tty (if ?b then _ else _) => destruct b
  | |- keeps_tty (match ?x with _ => _ end) => destruct x
  | |- keeps_tty _ => solve [eauto with tty]
  end.

Ltac keeps_tty_auto := repeat keeps_tty_step.

Lemma keeps_tty_press_any_key message : keeps_tty (press_any_key message).
Proof. unfold press_any_key. keeps_tty_auto. Qed.

#[local] Hint Resolve keeps_tty_press_any_key : tty.

Lemma keeps_tty_press_any_key_default : keeps_tty press_any_key_default.
Proof. apply keeps_tty_press_any_key. Qed.

Lemma keeps_tty_display_demo k p c wo cb : keeps_tty (display_demo k p c wo cb).
Proof. unfold display_demo. keeps_tty_auto. Qed.

Lemma keeps_tty_write_initial_file : keeps_tty write_initial_file.
Proof. unfold write_initial_file. keeps_tty_auto. Qed.

Lemma keeps_tty_ask_yes_no_loop fuel : keeps_tty (ask_yes_no_loop fuel).
Proof.
  induction fuel as [|fuel IH]; cbn [ask_yes_no_loop]; [intros w w' H; discriminate H|].
  keeps_tty_auto.
Qed.

#[local] Hint Resolve keeps_tty_press_any_key_default keeps_tty_display_demo
  keeps_tty_write_initial_file keeps_tty_ask_yes_no_loop : tty.

Lemma keeps_tty_ask_yes_no fuel q : keeps_tty (ask_yes_no fuel q).
Proof. unfold ask_yes_no. keeps_tty_auto. Qed.

Lemma keeps_tty_append_text_to_file text : keeps_tty (append_text_to_file text).
Proof. unfold append_text_to_file. keeps_tty_auto. Qed.

Lemma keeps_tty_prepend_prompt_loop fuel : keeps_tty (prepend_prompt_loop fuel).
Proof.
  induction fuel as [|fuel IH]; cbn [prepend_prompt_loop];
    [intros w w' H; discriminate H|].
  keeps_tty_auto.
Qed.

#[local] Hint Resolve keeps_tty_ask_yes_no keeps_tty_append_text_to_file
  keeps_tty_prepend_prompt_loop : tty.

Lemma keeps_tty_prepend_number_to_second_line fuel :
  keeps_tty (prepend_number_to_second_line fuel).
Proof. unfold prepend_number_to_second_line. keeps_tty_auto. Qed.

Lemma keeps_tty_menu_loop fuel items mx : keeps_tty (menu_loop fuel items mx).
Proof.
  induction fuel as [|fuel IH]; cbn [menu_loop]; [intros w w' H; discriminate H|].
  unfold reprompt_menu. keeps_tty_auto.
Qed.

#[local] Hint Resolve keeps_tty_prepend_number_to_second_line
  keeps_tty_menu_loop : tty.

Lemma keeps_tty_menu_from_file fuel : keeps_tty (menu_from_file fuel).
Proof. unfold menu_from_file. keeps_tty_auto. Qed.

Lemma keeps_tty_run_bash_command cmd : keeps_tty (run_bash_command cmd).
Proof. unfold run_bash_command. keeps_tty_auto. Qed.

Lemma keeps_tty_capture_bash_output cmd : keeps_tty (capture_bash_output cmd).
Proof. unfold capture_bash_output, check_output. keeps_tty_auto. Qed.

Lemma keeps_tty_demonstrate_data_types : keeps_tty demonstrate_data_types.
Proof. unfold demonstrate_data_types. keeps_tty_auto. Qed.

Lemma keeps_tty_demonstrate_scope : keeps_tty demonstrate_scope.
Proof.
  unfold demonstrate_scope. cbv zeta. keeps_tty_auto.
  intros w w' H. now inversion H.
Qed.

Lemma keeps_tty_demonstrate_functions : keeps_tty demonstrate_functions.
Proof. unfold demonstrate_functions. keeps_tty_auto. Qed.

Lemma keeps_tty_conditional_example v : keeps_tty (conditional_example v).
Proof. unfold conditional_example. keeps_tty_auto. Qed.

Lemma keeps_tty_demonstrate_imports : keeps_tty demonstrate_imports.
Proof.
  unfold demonstrate_imports. keeps_tty_auto.
  intros w w' H. destruct (HAS_REQUESTS w); now inversion H.
Qed.

#[local] Hint Resolve keeps_tty_menu_from_file keeps_tty_run_bash_command
  keeps_tty_capture_bash_output keeps_tty_demonstrate_data_types
  keeps_tty_demonstrate_scope keeps_tty_demonstrate_functions
  keeps_tty_conditional_example keeps_tty_demonstrate_imports : tty.

Lemma keeps_tty_marker_file_demo : keeps_tty marker_file_demo.
Proof. unfold marker_file_demo. keeps_tty_auto. Qed.

Lemma keeps_tty_text_parsing_demo : keeps_tty text_parsing_demo.
Proof. unfold text_parsing_demo, suffix_second_line. keeps_tty_auto. Qed.

#[local] Hint Resolve keeps_tty_marker_file_demo keeps_tty_text_parsing_demo : tty.

Lemma keeps_tty_main_steps fuel (s : M unit) :
  In s (main_steps fuel) -> keeps_tty s.
Proof.
  unfold main_steps. cbn [In]. intros H.
  repeat (destruct H as [<-|H]); try contradiction;
    unfold step_intro, step_create_file, step_edit, edit_preamble, edit_action,
      edit_interrupted, step_inform, step_menu, step_shell, step_capture,
      step_data_types, step_scope, step_functions, step_conditional,
      conditional_input, step_imports, step_marker, step_text_parsing,
      step_cleanup, cleanup_preamble, cleanup_action, cleanup_interrupted,
      unlink_if_exists, ask_for_text;
    keeps_tty_auto.
Qed.

Lemma keeps_tty_for_each_In {A} (l : list A) (f : A -> M unit) :
  (forall x, In x l -> keeps_tty (f x)) -> keeps_tty (for_each l f).
Proof.
  induction l as [|x l IH]; intros Hf; cbn [for_each]; [apply keeps_tty_ret|].
  apply keeps_tty_bind; [apply Hf; now left|].
  intros _. apply IH. intros y Hy. apply Hf. now right.
Qed.

(** X1: however a run of [main] ends, by returning or by any exception
    leaving it, the terminal settings in effect at the end are those in
    effect at the start: every raw read of every step restored them. *)
Theorem main_keeps_terminal_mode (fuel : nat) (w w' : world) :
  final_world (main fuel w) = Some w' -> tty_attr w' = tty_attr w.
Proof.
  revert w w'. change (keeps_tty (main fuel)).
  unfold main, run_steps. apply keeps_tty_bind; [|intros _; apply keeps_tty_print].
  apply keeps_tty_for_each_In. apply keeps_tty_main_steps.
Qed.

Lemma main_keeps_terminal_mode_witness :
  tty_attr (world_after (main 5) (world0 [CTRL_C] ∅)) = tty_attr (world0 [CTRL_C] ∅).
Proof.
  apply (main_keeps_terminal_mode 5 (world0 [CTRL_C] ∅)
           (world_after (main 5) (world0 [CTRL_C] ∅))).
  vm_compute. reflexivity.
Defined.

(** ** The pause *)

(** ** The integer prompt of [prepend_number_to_second_line] *)

Lemma rstrip_cons (c : ascii) (s : string) :
  rstrip (String c s)
  = match rstrip s with
    | EmptyString => if isspace c then EmptyString else String c EmptyString
    | String c' r => String c (String c' r)
    end.
Proof. cbn [rstrip]. now destruct (rstrip s). Qed.

Lemma rstrip_idem (s : string) : rstrip (rstrip s) = rstrip s.
Proof.
  induction s as [|c s IH]; [reflexivity|]. rewrite rstrip_cons.
  destruct (rstrip s) as [|c' r] eqn:E.
  - destruct (isspace c) eqn:Hc; [reflexivity|]. rewrite rstrip_cons.
    cbn [rstrip]. now rewrite Hc.
  - rewrite rstrip_cons, IH. reflexivity.
Qed.

Lemma lstrip_idem (s : string) : lstrip (lstrip s) = lstrip s.
Proof.
  induction s as [|c s IH]; [reflexivity|]. cbn [lstrip].
  destruct (isspace c) eqn:Hc; [exact IH|]. cbn [lstrip]. now rewrite Hc.
Qed.

Lemma rstrip_lstrip (s : string) : rstrip (lstrip s) = lstrip (rstrip s).
Proof.
  induction s as [|c s IH]; [reflexivity|]. rewrite rstrip_cons. cbn [lstrip].
  destruct (isspace c) eqn:Hc.
  - rewrite IH. destruct (rstrip s) as [|c' r]; [reflexivity|].
    cbn [lstrip]. now rewrite Hc.
  - rewrite rstrip_cons. destruct (rstrip s) as [|c' r]; cbn [lstrip]; now rewrite Hc.
Qed.

Lemma strip_idem (s : string) : strip (strip s) = strip s.
Proof.
  unfold strip. now rewrite (rstrip_lstrip (rstrip s)), rstrip_idem, lstrip_idem.
Qed.

Lemma digit_not_linebreak (c : ascii) :
  is_ascii_digit c = true -> is_linebreak c = false.
Proof. destruct c as [[] [] [] [] [] [] [] []]; vm_compute; congruence. Qed.

Lemma parse_digits_clean (s : string) : forall b acc z,
  parse_digits b acc s = Some z -> line_clean s = true.
Proof.
  induction s as [|c s IH]; intros b acc z H; [reflexivity|].
  cbn [parse_digits] in H. cbn [line_clean].
  destruct (is_ascii_digit c) eqn:D.
  - rewrite (digit_not_linebreak c D). exact (IH _ _ _ H).
  - destruct (Ascii.eqb_spec c "_") as [->|]; [|discriminate H].
    destruct b; [|discriminate H]. exact (IH _ _ _ H).
Qed.

Lemma strip_fixed_lstrip (s : string) : strip s = s -> lstrip s = s.
Proof. intros H. rewrite <- H. unfold strip. apply lstrip_idem. Qed.

Lemma strip_fixed_rstrip (s : string) : strip s = s -> rstrip s = s.
Proof.
  intros H. rewrite <- H. unfold strip. now rewrite rstrip_lstrip, rstrip_idem.
Qed.

Lemma int_space_isspace (c : ascii) : int_space c = true -> isspace c = true.
Proof. destruct c as [[] [] [] [] [] [] [] []]; vm_compute; congruence. Qed.

Lemma lstrip_length (s : string) :
  (String.length (lstrip s) <= String.length s)%nat.
Proof.
  induction s as [|c s IH]; [reflexivity|]. cbn [lstrip].
  destruct (isspace c); cbn [String.length]; lia.
Qed.

Lemma lstrip_by_fixed (s : string) : lstrip s = s -> lstrip_by int_space s = s.
Proof.
  destruct s as [|c s]; [reflexivity|]. cbn [lstrip lstrip_by]. intros H.
  destruct (isspace c) eqn:Hc.
  - pose proof (lstrip_length s) as Hl. rewrite H in Hl.
    cbn [String.length] in Hl. lia.
  - destruct (int_space c) eqn:Hi; [|reflexivity].
    apply int_space_isspace in Hi. congruence.
Qed.

Lemma rstrip_by_cons (p : ascii -> bool) (c : ascii) (s : string) :
  rstrip_by p (String c s)
  = match rstrip_by p s with
    | EmptyString => if p c then EmptyString else String c EmptyString
    | String c' r => String c (String c' r)
    end.
Proof. cbn [rstrip_by]. now destruct (rstrip_by p s). Qed.

Lemma rstrip_by_fixed (s : string) : rstrip s = s -> rstrip_by int_space s = s.
Proof.
  induction s as [|c s IH]; [reflexivity|].
  rewrite rstrip_cons, rstrip_by_cons. intros H.
  destruct (rstrip s) as [|c' r] eqn:E.
  - destruct (isspace c) eqn:Hc; [discriminate H|].
    injection H as <-. cbn [rstrip_by].
    destruct (int_space c) eqn:Hi; [|reflexivity].
    apply int_space_isspace in Hi. congruence.
  - injection H as <-. rewrite (IH eq_refl). reflexivity.
Qed.

(** Text that [int] accepts as it stands holds no line boundary. *)
Lemma int_clean (s : string) (z : Z) :
  strip s = s -> int s = Some z -> line_clean s = true.
Proof.
  intros Hs H. unfold int in H.
  rewrite (rstrip_by_fixed s (strip_fixed_rstrip s Hs)) in H.
  rewrite (lstrip_by_fixed s (strip_fixed_lstrip s Hs)) in H. cbv zeta in H.
  destruct (INT_MAX_STR_DIGITS <? digit_count s); [discriminate H|].
  destruct s as [|c r]; [discriminate H|].
  destruct c as [[] [] [] [] [] [] [] []];
    first [ discriminate H
          | exact (parse_digits_clean r _ _ _ H)
          | destruct (parse_digits false 0 r) as [v|] eqn:E;
            [exact (parse_digits_clean r _ _ _ E)|discriminate H]
          | cbn [parse_digits is_ascii_digit] in H;
            first [discriminate H | exact (parse_digits_clean r _ _ _ H)] ].
Qed.

(** One turn of the prompt loop on the line [answer]. *)
Lemma prepend_prompt_loop_line (fuel : nat) (w : world) (answer : string)
    (rest : list ascii) :
  read_line (stdin w) = Line answer rest ->
  prepend_prompt_loop (S fuel) w
  = let w1 := set_stdin rest (emit (Write prepend_prompt) w) in
    if negb (nonempty (strip answer)) then Ret None (emit skip_notice w1)
    else match int (strip answer) with
         | Some _ => Ret (Some (strip answer)) w1
         | None => prepend_prompt_loop fuel (emit invalid_integer_notice w1)
         end.
Proof.
  intros H. cbn [prepend_prompt_loop].
  rewrite (bind_Ret _ _ _ _ _ (input_line prepend_prompt answer rest w H)).
  cbv zeta. destruct (negb (nonempty (strip answer))); [reflexivity|].
  destruct (int (strip answer)); reflexivity.
Qed.

Lemma strip_empty_not_nonempty (s : string) :
  strip s = EmptyString -> negb (nonempty (strip s)) = true.
Proof. now intros ->. Qed.

Lemma int_Some_nonempty (s : string) (z : Z) :
  int (strip s) = Some z -> negb (nonempty (strip s)) = false.
Proof.
  intros H. destruct (strip s) as [|c r] eqn:E; [|reflexivity].
  discriminate H.
Qed.

(** X3: a blank answer (nothing but whitespace before Enter) makes
    [prepend_number_to_second_line] return at once: the notice is printed
    and no file is read or written, so the call succeeds even when the
    scratch file is missing. *)
Theorem prepend_blank_answer_skips (fuel : nat) (w : world) (answer : string)
    (rest : list ascii) :
  read_line (stdin w) = Line answer rest ->
  strip answer = EmptyString ->
  exists w',
    prepend_number_to_second_line (S fuel) w = Ret tt w'
    /\ fs w' = fs w
    /\ stdin w' = rest
    /\ stdout w' = stdout w ++ [Write prepend_prompt; skip_notice].
Proof.
  intros Hl Hs. unfold prepend_number_to_second_line.
  unfold bind at 1. rewrite (prepend_prompt_loop_line _ _ _ _ Hl). cbv zeta.
  rewrite (strip_empty_not_nonempty _ Hs).
  eexists. split; [reflexivity|]. split; [reflexivity|]. split; [reflexivity|].
  cbn [stdout emit set_stdin]. now rewrite <- app_assoc.
Qed.

Lemma prepend_blank_answer_skips_witness :
  exists w',
    prepend_number_to_second_line 1 (world0 (keys_of "  " ++ [LF; "7"%char]) ∅)
    = Ret tt w'
    /\ fs w' = fs (world0 (keys_of "  " ++ [LF; "7"%char]) ∅)
    /\ stdin w' = ["7"%char]
    /\ stdout w'
       = stdout (world0 (keys_of "  " ++ [LF; "7"%char]) ∅)
         ++ [Write prepend_prompt; skip_notice].
Proof.
  apply (prepend_blank_answer_skips 0
           (world0 (keys_of "  " ++ [LF; "7"%char]) ∅) "  " ["7"%char]).
  - reflexivity.
  - reflexivity.
Defined.

(** X4: an answer that is neither blank nor an integer is refused: the
    guidance is printed and the prompt loop takes another turn on the rest
    of the input, with the files as they were.  At the end of input the
    prompt raises EOFError, likewise with no file touched. *)
Theorem prepend_invalid_answer_reprompts (fuel : nat) (w : world) :
  (forall answer rest,
      read_line (stdin w) = Line answer rest ->
      strip answer <> EmptyString ->
      int (strip answer) = None ->
      exists w2,
        prepend_number_to_second_line (S fuel) w
        = prepend_number_to_second_line fuel w2
        /\ fs w2 = fs w
        /\ stdin w2 = rest
        /\ stdout w2 = stdout w ++ [Write prepend_prompt; invalid_integer_notice])
  /\ (stdin w = [] ->
      exists w',
        prepend_number_to_second_line (S fuel) w = Raise EOFError w'
        /\ fs w' = fs w
        /\ stdout w' = stdout w ++ [Write prepend_prompt]).
Proof.
  split.
  - intros answer rest Hl Hne Hint.
    exists (emit invalid_integer_notice
              (set_stdin rest (emit (Write prepend_prompt) w))).
    split; [|split; [reflexivity|split; [reflexivity|]]].
    + unfold prepend_number_to_second_line, bind.
      rewrite (prepend_prompt_loop_line _ _ _ _ Hl). cbv zeta.
      rewrite Hint. destruct (strip answer); [now destruct Hne|reflexivity].
    + cbn [stdout emit set_stdin]. now rewrite <- app_assoc.
  - intros He. unfold prepend_number_to_second_line.
    cbn [prepend_prompt_loop]. unfold bind at 1, bind at 1.
    rewrite input_eq, He. cbn [read_line].
    eexists. split; [reflexivity|]. split; reflexivity.
Qed.

Lemma prepend_invalid_answer_reprompts_witness :
  exists w2,
    prepend_number_to_second_line 2 (world0 (keys_of "x1" ++ [LF; "7"%char; LF]) ∅)
    = prepend_number_to_second_line 1 w2
    /\ fs w2 = fs (world0 (keys_of "x1" ++ [LF; "7"%char; LF]) ∅)
    /\ stdin w2 = ["7"%char; LF]
    /\ stdout w2
       = stdout (world0 (keys_of "x1" ++ [LF; "7"%char; LF]) ∅)
         ++ [Write prepend_prompt; invalid_integer_notice].
Proof.
  apply (proj1 (prepend_invalid_answer_reprompts 1
                  (world0 (keys_of "x1" ++ [LF; "7"%char; LF]) ∅))
           "x1" ["7"%char; LF]).
  - reflexivity.
  - discriminate.
  - reflexivity.
Defined.

Lemma prepended_length (num_str content : string) :
  length (prepended num_str content)
  = Nat.max 2 (length (text_lines content)).
Proof.
  unfold prepended, pad_to_two. rewrite length_insert, length_app, length_replicate.
  lia.
Qed.

Lemma prepended_second (num_str content : string) :
  prepended num_str content !! 1%nat
  = Some (num_str +:+ " " +:+ nth 1 (text_lines content) EmptyString).
Proof.
  unfold prepended, pad_to_two.
  destruct (text_lines content) as [|a [|b t]]; reflexivity.
Qed.

Lemma prepended_others (num_str content : string) (i : nat) :
  i <> 1%nat -> (i < length (text_lines content))%nat ->
  prepended num_str content !! i = text_lines content !! i.
Proof.
  intros Hi Hlt. unfold prepended, pad_to_two.
  rewrite list_lookup_insert_ne by congruence.
  now apply lookup_app_l.
Qed.

(** X5: for every answer that [int] accepts and every existing scratch
    file, [prepend_number_to_second_line] returns and the file then holds
    the lines of before, at least two of them, with the answer as typed
    (stripped, not normalised) and a space in front of the second line;
    every other line is unchanged. *)
Theorem prepend_any_integer (fuel : nat) (w : world) (answer content : string)
    (rest : list ascii) (z : Z) :
  read_line (stdin w) = Line answer rest ->
  int (strip answer) = Some z ->
  fs w !! TMP_FILE = Some content ->
  exists w' lines',
    prepend_number_to_second_line (S fuel) w = Ret tt w'
    /\ stdin w' = rest
    /\ file_lines TMP_FILE w' = Some lines'
    /\ length lines' = Nat.max 2 (length (text_lines content))
    /\ lines' !! 1%nat
       = Some (strip answer +:+ " " +:+ nth 1 (text_lines content) EmptyString)
    /\ (forall i, i <> 1%nat -> (i < length (text_lines content))%nat ->
          lines' !! i = text_lines content !! i).
Proof.
  intros Hl Hint Hf.
  exists (emit (Write ("Prepended number to the second line of " +:+ TMP_FILE
                       +:+ "." +:+ nl))
            (set_fs (<[TMP_FILE := join nl (prepended (strip answer) content)
                                   +:+ nl]> (fs w))
               (set_stdin rest (emit (Write prepend_prompt) w)))),
         (prepended (strip answer) content).
  split; [|split; [reflexivity|split; [|split; [|split]]]].
  - unfold prepend_number_to_second_line. unfold bind at 1.
    rewrite (prepend_prompt_loop_line _ _ _ _ Hl). cbv zeta.
    rewrite (int_Some_nonempty _ _ Hint), Hint.
    unfold bind, read_text. cbn [fs set_stdin emit]. rewrite Hf. reflexivity.
  - unfold file_lines. cbn [fs emit set_fs]. rewrite lookup_insert_eq.
    cbn [fmap option_fmap option_map]. f_equal.
    apply text_lines_join; [apply prepended_nonempty|].
    apply prepended_clean. apply (int_clean _ z); [apply strip_idem|assumption].
  - apply prepended_length.
  - apply prepended_second.
  - intros i. apply prepended_others.
Qed.

Lemma prepend_any_integer_witness :
  exists w' lines',
    prepend_number_to_second_line 1
      (world0 (keys_of " -1_0 " ++ [LF]) {[ TMP_FILE := three_lines ]}) = Ret tt w'
    /\ stdin w' = []
    /\ file_lines TMP_FILE w' = Some lines'
    /\ length lines' = Nat.max 2 (length (text_lines three_lines))
    /\ lines' !! 1%nat
       = Some (strip " -1_0 " +:+ " " +:+ nth 1 (text_lines three_lines) EmptyString)
    /\ (forall i, i <> 1%nat -> (i < length (text_lines three_lines))%nat ->
          lines' !! i = text_lines three_lines !! i).
Proof.
  apply (prepend_any_integer 0
           (world0 (keys_of " -1_0 " ++ [LF]) {[ TMP_FILE := three_lines ]})
           " -1_0 " three_lines [] (-10)).
  - reflexivity.
  - reflexivity.
  - reflexivity.
Defined.

(** X6: with an integer typed and the scratch file missing, the function
    raises FileNotFoundError after the prompt took the line; nothing is
    written, so the file is still missing afterwards. *)
Theorem prepend_missing_file (fuel : nat) (w : world) (answer : string)
    (rest : list ascii) (z : Z) :
  read_line (stdin w) = Line answer rest ->
  int (strip answer) = Some z ->
  fs w !! TMP_FILE = None ->
  exists w',
    prepend_number_to_second_line (S fuel) w = Raise (FileNotFoundError TMP_FILE) w'
    /\ fs w' = fs w
    /\ stdin w' = rest
    /\ stdout w' = stdout w ++ [Write prepend_prompt].
Proof.
  intros Hl Hint Hf. unfold prepend_number_to_second_line. unfold bind at 1.
  rewrite (prepend_prompt_loop_line _ _ _ _ Hl). cbv zeta.
  rewrite (int_Some_nonempty _ _ Hint), Hint.
  erewrite bind_Raise by (apply read_text_missing; exact Hf).
  eexists. split; [reflexivity|]. repeat split.
Qed.

Lemma prepend_missing_file_witness :
  exists w',
    prepend_number_to_second_line 1 (world0 (keys_of "7" ++ [LF]) ∅)
    = Raise (FileNotFoundError TMP_FILE) w'
    /\ fs w' = fs (world0 (keys_of "7" ++ [LF]) ∅)
    /\ stdin w' = []
    /\ stdout w' = stdout (world0 (keys_of "7" ++ [LF]) ∅) ++ [Write prepend_prompt].
Proof.
  apply (prepend_missing_file 0 (world0 (keys_of "7" ++ [LF]) ∅) "7" [] 7).
  - reflexivity.
  - reflexivity.
  - reflexivity.
Defined.

(** ** Edges of the menu *)

(** X7: when the scratch file has no line that is not blank (an empty
    file included), [menu_from_file] says so and returns no selection at
    once: no key is read, whatever the fuel. *)
Theorem menu_from_file_no_items (fuel : nat) (w : world) (content : string) :
  fs w !! TMP_FILE = Some content ->
  menu_items content = [] ->
  menu_from_file fuel w = Ret None (emit no_items_notice w)
  /\ stdin (emit no_items_notice w) = stdin w.
Proof.
  intros Hf Hi. split; [|reflexivity].
  unfold menu_from_file, bind at 1, read_text. rewrite Hf.
  fold (text_lines content). fold (menu_items content). rewrite Hi. reflexivity.
Qed.

Lemma menu_from_file_no_items_witness :
  menu_from_file 0
    (world0 (keys_of "1") {[ TMP_FILE := " " +:+ nl +:+ nl ]})
  = Ret None (emit no_items_notice
                (world0 (keys_of "1") {[ TMP_FILE := " " +:+ nl +:+ nl ]}))
  /\ stdin (emit no_items_notice
              (world0 (keys_of "1") {[ TMP_FILE := " " +:+ nl +:+ nl ]}))
     = stdin (world0 (keys_of "1") {[ TMP_FILE := " " +:+ nl +:+ nl ]}).
Proof.
  apply (menu_from_file_no_items 0
           (world0 (keys_of "1") {[ TMP_FILE := " " +:+ nl +:+ nl ]})
           (" " +:+ nl +:+ nl)).
  - reflexivity.
  - reflexivity.
Defined.

Lemma digit_char_tests (c : ascii) :
  isdigit (String c EmptyString) = isdigit_char c
  /\ (is_ascii_digit c = true -> int (String c EmptyString) = Some (ord c - 48))
  /\ (superscript_digit c = true ->
      int (String c EmptyString) = None
      /\ (ord c =? 3) = false /\ (ord c =? 27) = false
      /\ isdigit (String c EmptyString) = true).
Proof.
  destruct c as [[] [] [] [] [] [] [] []]; vm_compute; repeat split; congruence.
Qed.

(** X8: a key that [isdigit] accepts and [int] refuses (a superscript
    two, three or one) is not handled by the menu: [menu_from_file] raises
    ValueError at it, after the terminal settings were restored. *)
Theorem menu_superscript_digit_raises (fuel : nat) (w : world) (content : string)
    (c : ascii) (rest : list ascii) :
  fs w !! TMP_FILE = Some content ->
  menu_items content <> [] ->
  stdin w = c :: rest ->
  superscript_digit c = true ->
  exists w',
    menu_from_file (S fuel) w = Raise ValueError w'
    /\ stdin w' = rest
    /\ fs w' = fs w
    /\ tty_attr w' = tty_attr w.
Proof.
  intros Hf Hne Hs Hc.
  destruct (digit_char_tests c) as [_ [_ Hsup]].
  destruct (Hsup Hc) as [Hint [H3 [H27 Hdig]]].
  rewrite (menu_from_file_eq _ _ _ Hf Hne).
  rewrite (menu_loop_key _ _ _ _ c rest)
    by (unfold menu_shown; now rewrite emits_stdin).
  rewrite H3, H27, Hdig, Hint.
  eexists. split; [reflexivity|].
  unfold menu_shown.
  rewrite after_key_stdin, after_key_fs, after_key_tty_attr,
    emits_stdin, emits_fs, emits_tty_attr, Hs.
  repeat split.
Qed.

Lemma menu_superscript_digit_raises_witness :
  exists w',
    menu_from_file 1 (world0 [ascii_of_nat 178; "1"%char] five_items)
    = Raise ValueError w'
    /\ stdin w' = ["1"%char]
    /\ fs w' = fs (world0 [ascii_of_nat 178; "1"%char] five_items)
    /\ tty_attr w' = tty_attr (world0 [ascii_of_nat 178; "1"%char] five_items).
Proof.
  apply (menu_superscript_digit_raises 0
           (world0 [ascii_of_nat 178; "1"%char] five_items) five_lines
           (ascii_of_nat 178) ["1"%char]).
  - reflexivity.
  - vm_compute. discriminate.
  - reflexivity.
  - reflexivity.
Defined.

Lemma menu_ignored_tests (mx : Z) (c : ascii) :
  menu_ignored mx c = true ->
  (ord c =? 3) = false /\ (ord c =? 27) = false
  /\ (isdigit (String c EmptyString) = false
      \/ (isdigit (String c EmptyString) = true
          /\ int (String c EmptyString) = Some (ord c - 48)
          /\ (1 <=? ord c - 48) && (ord c - 48 <=? mx) = false)).
Proof.
  unfold menu_ignored. intros H.
  apply andb_prop in H as [H H2]. apply andb_prop in H as [H3 H27].
  apply negb_true_iff in H3, H27. split; [assumption|]. split; [assumption|].
  destruct (digit_char_tests c) as [Hd [Hint _]]. rewrite Hd.
  apply orb_prop in H2 as [H2|H2].
  - left. now apply negb_true_iff in H2.
  - right. apply andb_prop in H2 as [Ha Hr]. apply negb_true_iff in Hr.
    split; [|split; [now apply Hint|assumption]].
    unfold isdigit_char. now rewrite Ha.
Qed.

Lemma menu_loop_ignored_key (fuel : nat) (items : list string) (mx : Z)
    (v : world) (c : ascii) (rest : list ascii) :
  stdin v = c :: rest ->
  menu_ignored mx c = true ->
  menu_loop (S fuel) items mx v
  = menu_loop fuel items mx (emit menu_reprompt (after_key v)).
Proof.
  intros Hs Hc. rewrite (menu_loop_key _ _ _ _ _ _ Hs).
  destruct (menu_ignored_tests mx c Hc) as [H3 [H27 [Hd|[Hd [Hint Hr]]]]];
    rewrite H3, H27, Hd; [reflexivity|].
  now rewrite Hint, Hr.
Qed.

Lemma menu_loop_starves (fuel : nat) (items : list string) (mx : Z) : forall v,
  Forall (fun c => menu_ignored mx c = true) (stdin v) ->
  menu_loop fuel items mx v = OutOfFuel.
Proof.
  induction fuel as [|fuel IH]; intros v H; [reflexivity|].
  destruct (stdin v) as [|c rest] eqn:E.
  - rewrite (menu_loop_eof _ _ _ _ E). apply IH.
    cbn [stdin emit]. rewrite after_key_stdin, E. constructor.
  - inversion H as [|? ? Hc Hrest]; subst.
    rewrite (menu_loop_ignored_key _ _ _ _ _ _ E Hc). apply IH.
    cbn [stdin emit]. now rewrite after_key_stdin, E.
Qed.

Lemma menu_loop_ignored_run (items : list string) (mx : Z) (pre : list ascii) :
  forall fuel v tail,
  Forall (fun c => menu_ignored mx c = true) pre ->
  stdin v = pre ++ tail ->
  exists v1,
    menu_loop (length pre + fuel) items mx v = menu_loop fuel items mx v1
    /\ stdin v1 = tail
    /\ stdout v1 = stdout v ++ replicate (length pre) menu_reprompt
    /\ fs v1 = fs v.
Proof.
  induction pre as [|c pre IH]; intros fuel v tail Hpre Hin.
  - exists v. cbn. rewrite app_nil_r. auto.
  - inversion Hpre as [|? ? Hc Hrest]; subst. cbn [length Nat.add].
    rewrite (menu_loop_ignored_key _ _ _ _ _ _ Hin Hc).
    destruct (IH fuel (emit menu_reprompt (after_key v)) tail Hrest)
      as [v1 [Hrun [Hs [Ho Hf]]]].
    { cbn [stdin emit]. now rewrite after_key_stdin, Hin. }
    exists v1. split; [assumption|]. split; [assumption|]. split; [|assumption].
    rewrite Ho. cbn [stdout emit replicate]. rewrite after_key_stdout.
    now rewrite <- app_assoc.
Qed.

(** ** Shell commands *)

(** ** The preamble *)

(** X11: [display_demo] only prints: an optional clearing of the screen,
    the line naming kind and purpose, then every line of the code text
    behind four spaces.  It always returns, reads no key and touches no
    file, and its [will_output] argument changes nothing. *)
Theorem display_demo_only_prints (kind purpose code_text : string)
    (will_output clear_before : bool) (w : world) :
  exists w',
    display_demo kind purpose code_text will_output clear_before w = Ret tt w'
    /\ display_demo kind purpose code_text (negb will_output) clear_before w
       = Ret tt w'
    /\ stdout w'
       = stdout w
         ++ (if clear_before then [ClearScreen] else [])
         ++ Write (("This is the " +:+ kind +:+ " used to " +:+ purpose) +:+ nl)
            :: map (fun line => Write (("    " +:+ line) +:+ nl))
                 (splitlines code_text)
    /\ stdin w' = stdin w
    /\ fs w' = fs w.
Proof.
  exists (emits ((if clear_before then [ClearScreen] else [])
                 ++ Write (("This is the " +:+ kind +:+ " used to " +:+ purpose) +:+ nl)
                 :: map (fun line => Write (("    " +:+ line) +:+ nl))
                      (splitlines code_text)) w).
  assert (H : forall wo,
             display_demo kind purpose code_text wo clear_before w
             = Ret tt (emits ((if clear_before then [ClearScreen] else [])
                 ++ Write (("This is the " +:+ kind +:+ " used to " +:+ purpose) +:+ nl)
                 :: map (fun line => Write (("    " +:+ line) +:+ nl))
                      (splitlines code_text)) w)).
  { intros wo. unfold display_demo. destruct clear_before.
    - erewrite bind_Ret by (unfold clear_screen; reflexivity).
      erewrite bind_Ret by reflexivity. rewrite for_each_print. reflexivity.
    - erewrite bind_Ret by reflexivity.
      erewrite bind_Ret by reflexivity. rewrite for_each_print. reflexivity. }
  split; [apply H|]. split; [apply H|].
  split; [apply emits_stdout|]. split; [apply emits_stdin|apply emits_fs].
Qed.

(** ** Creating the file and appending to it *)

(** X12: [write_initial_file] replaces whatever the scratch file held by
    its five lines, and a line appended right after it, as [main] does with
    the user's text, becomes the sixth and last line. *)
Theorem write_initial_then_append (text : string) (w : world) :
  line_clean text = true ->
  exists w1 w2,
    write_initial_file w = Ret tt w1
    /\ file_lines TMP_FILE w1 = Some initial_lines
    /\ append_text_to_file text w1 = Ret tt w2
    /\ file_lines TMP_FILE w2 = Some (initial_lines ++ [text])
    /\ stdin w2 = stdin w.
Proof.
  intros Hc.
  set (c0 := "Line 1: Header - pyref example file" +:+ nl
             +:+ "Line 2: This is the second line (we'll prepend numbers here later)"
             +:+ nl +:+ "Line 3: Menu item A - apples" +:+ nl
             +:+ "Line 4: Menu item B - bananas" +:+ nl
             +:+ "Line 5: Menu item C - cherries").
  set (w1 := emit (Write (("Wrote initial file to " +:+ TMP_FILE) +:+ nl))
               (set_fs (<[TMP_FILE := c0 +:+ nl]> (fs w)) w)).
  assert (Hf : fs w1 !! TMP_FILE = Some (c0 +:+ nl)).
  { unfold w1. cbn [fs emit set_fs]. apply lookup_insert_eq. }
  destruct (append_text_adds_line text c0 w1 Hf Hc) as [w2 [Hr Hl]].
  exists w1, w2. split; [reflexivity|]. split; [|split; [exact Hr|split]].
  - unfold file_lines. rewrite Hf. vm_compute. reflexivity.
  - rewrite Hl; f_equal; f_equal; vm_compute; reflexivity.
  - rewrite append_text_to_file_eq in Hr. injection Hr as <-. reflexivity.
Qed.

Lemma write_initial_then_append_witness :
  exists w1 w2,
    write_initial_file (world0 [] two_lines_unterminated) = Ret tt w1
    /\ file_lines TMP_FILE w1 = Some initial_lines
    /\ append_text_to_file "hello" w1 = Ret tt w2
    /\ file_lines TMP_FILE w2 = Some (initial_lines ++ ["hello"])
    /\ stdin w2 = stdin (world0 [] two_lines_unterminated).
Proof.
  apply (write_initial_then_append "hello" (world0 [] two_lines_unterminated)).
  reflexivity.
Defined.

(** ** The integer of the conditional block *)

(** X13: the prompt of the conditional block gives the integer typed when
    [int] accepts the line and 0 otherwise: a line that is no integer and
    the end of input are both swallowed.  Only an interrupt leaves it. *)
Theorem conditional_input_defaults_to_zero (w : world) :
  (forall answer rest,
      read_line (stdin w) = Line answer rest ->
      conditional_input w
      = Ret (default 0 (int answer))
          (set_stdin rest (emit (Write conditional_prompt) w)))
  /\ (read_line (stdin w) = AtEof ->
      conditional_input w = Ret 0 (emit (Write conditional_prompt) w))
  /\ (forall rest,
      read_line (stdin w) = Interrupted rest ->
      conditional_input w
      = Raise KeyboardInterrupt (set_stdin rest (emit (Write conditional_prompt) w))).
Proof.
  unfold conditional_input, try_except, bind. rewrite input_eq.
  fold conditional_prompt.
  split; [|split].
  - intros answer rest ->. destruct (int answer); reflexivity.
  - intros ->. reflexivity.
  - intros rest ->. reflexivity.
Qed.

(** The line 5 followed by the unit separator is no integer for [int],
    which takes the line as typed: the block goes on with 0. *)
Example conditional_input_separator_gives_zero :
  conditional_input (world0 ["5"%char; ascii_of_nat 31; LF] ∅)
  = Ret 0 (set_stdin [] (emit (Write conditional_prompt)
                           (world0 ["5"%char; ascii_of_nat 31; LF] ∅))).
Proof. vm_compute. reflexivity. Qed.

Lemma conditional_input_defaults_to_zero_witness :
  conditional_input (world0 (keys_of "five" ++ [LF]) ∅)
  = Ret (default 0 (int "five"))
      (set_stdin [] (emit (Write conditional_prompt)
                       (world0 (keys_of "five" ++ [LF]) ∅))).
Proof.
  apply (proj1 (conditional_input_defaults_to_zero
                  (world0 (keys_of "five" ++ [LF]) ∅)) "five" []).
  reflexivity.
Defined.

(** ** The cleanup *)

Lemma unlink_if_exists_eq (p : string) (w : world) :
  exists w1,
    unlink_if_exists p w = Ret tt w1
    /\ fs w1 = delete p (fs w)
    /\ stdin w1 = stdin w
    /\ stdout w1 = stdout w.
Proof.
  unfold unlink_if_exists, bind. rewrite path_exists_eq.
  destruct (fs w !! p) as [c|] eqn:E.
  - rewrite bool_decide_eq_true_2 by eauto. unfold unlink. rewrite E.
    eexists. split; [reflexivity|]. repeat split.
  - rewrite bool_decide_eq_false_2 by (intros [? ?]; discriminate).
    exists w. split; [reflexivity|]. split; [|split; reflexivity].
    symmetry. now apply delete_id.
Qed.

(** ** The text parsing demo *)

Lemma suffix_second_line_eq (lines : list string) (w : world) :
  exists w', suffix_second_line lines w = Ret (mark_second lines) w'
             /\ fs w' = fs w /\ stdin w' = stdin w.
Proof.
  unfold suffix_second_line, mark_second.
  destruct (2 <=? len lines); [|now exists w].
  destruct (negb (endswith (nth 1 lines EmptyString) END_MARK)); [|now exists w].
  eexists. split; [reflexivity|]. split; reflexivity.
Qed.

Lemma text_parsing_demo_eq (w : world) (content : string) :
  fs w !! TMP_FILE = Some content ->
  exists w',
    text_parsing_demo w = Ret tt w'
    /\ fs w' = <[TMP_FILE := join nl (parsed_lines content) +:+ nl]> (fs w)
    /\ stdin w' = stdin w.
Proof.
  intros Hf. unfold text_parsing_demo.
  erewrite bind_Ret by reflexivity.
  erewrite bind_Ret by (unfold read_text; cbn [fs emit]; rewrite Hf; reflexivity).
  do 4 (erewrite bind_Ret by reflexivity).
  set (text := universal_newlines content).
  match goal with |- context [bind _ _ ?w0] => set (v0 := w0) end.
  assert (H0 : fs v0 = fs w /\ stdin v0 = stdin w) by (split; reflexivity).
  clearbody v0. destruct H0 as [Hf0 Hi0].
  assert (H1 : exists v1,
             (if contains "apples" text
              then print "Found substring 'apples' in file."
              else print "Did not find substring 'apples' in file.") v0
             = Ret tt v1 /\ fs v1 = fs v0 /\ stdin v1 = stdin v0).
  { destruct (contains "apples" text); eexists; repeat split. }
  destruct H1 as [v1 [H1 [Hf1 Hi1]]]. rewrite (bind_Ret _ _ _ _ _ H1).
  assert (H2 : exists v2,
             (if contains "bananas" text
              then print "Replaced first occurrence of 'bananas' with 'blueberries'." ;;
                   ret (replace_first "bananas" "blueberries" text)
              else ret text) v1
             = Ret (replace_bananas text) v2 /\ fs v2 = fs v1 /\ stdin v2 = stdin v1).
  { unfold replace_bananas. destruct (contains "bananas" text); eexists; repeat split. }
  destruct H2 as [v2 [H2 [Hf2 Hi2]]]. rewrite (bind_Ret _ _ _ _ _ H2).
  set (lines := splitlines (replace_bananas text)).
  assert (H3 : exists v3,
             match lines with
             | [] => ret lines
             | first :: _ =>
                 if contains "Header" first
                 then print "Moved 'Header' to start of first line." ;;
                      ret (<[0%nat := "Header: "
                                      +:+ strip (replace_all "Header" EmptyString first)]>
                             lines)
                 else ret lines
             end v2
             = Ret (move_header lines) v3 /\ fs v3 = fs v2 /\ stdin v3 = stdin v2).
  { unfold move_header. destruct lines as [|first tl]; [eexists; repeat split|].
    destruct (contains "Header" first); eexists; repeat split. }
  destruct H3 as [v3 [H3 [Hf3 Hi3]]]. rewrite (bind_Ret _ _ _ _ _ H3).
  destruct (suffix_second_line_eq (move_header lines) v3) as [v4 [H4 [Hf4 Hi4]]].
  rewrite (bind_Ret _ _ _ _ _ H4).
  do 3 (erewrite bind_Ret by reflexivity).
  erewrite bind_Ret
    by (unfold read_text; cbn [fs emit set_fs]; rewrite lookup_insert_eq; reflexivity).
  erewrite bind_Ret by reflexivity.
  eexists. split; [reflexivity|]. cbn [fs stdin emit set_fs].
  rewrite Hf4, Hf3, Hf2, Hf1, Hf0, Hi4, Hi3, Hi2, Hi1, Hi0. split; reflexivity.
Qed.

Lemma line_clean_lstrip (s : string) :
  line_clean s = true -> line_clean (lstrip s) = true.
Proof.
  induction s as [|c s IH]; [easy|]. intros H. cbn [lstrip].
  destruct (isspace c); [|exact H].
  apply IH. cbn [line_clean] in H. now apply andb_prop in H as [_ H].
Qed.

Lemma line_clean_rstrip (s : string) :
  line_clean s = true -> line_clean (rstrip s) = true.
Proof.
  induction s as [|c s IH]; [easy|]. intros H. rewrite rstrip_cons.
  cbn [line_clean] in H. apply andb_prop in H as [Hc Hs]. specialize (IH Hs).
  destruct (rstrip s) as [|c' r].
  - destruct (isspace c); [reflexivity|]. cbn [line_clean]. now rewrite Hc.
  - cbn [line_clean] in *. now rewrite Hc, IH.
Qed.

Lemma line_clean_strip (s : string) :
  line_clean s = true -> line_clean (strip s) = true.
Proof. intros H. unfold strip. now apply line_clean_lstrip, line_clean_rstrip. Qed.

Lemma line_clean_replace_all_empty (old s : string) : forall k,
  line_clean s = true ->
  line_clean (replace_all_from k old EmptyString s) = true.
Proof.
  induction s as [|c s IH]; intros k H; [reflexivity|].
  cbn [line_clean] in H. apply andb_prop in H as [Hc Hs].
  cbn [replace_all_from]. destruct k as [|k]; [|now apply IH].
  destruct (startswith (String c s) old).
  - change (EmptyString +:+ ?x) with x. now apply IH.
  - cbn [line_clean]. rewrite Hc. now apply IH.
Qed.

Lemma move_header_clean (lines : list string) :
  Forall (fun l => line_clean l = true) lines ->
  Forall (fun l => line_clean l = true) (move_header lines).
Proof.
  intros H. unfold move_header. destruct lines as [|first tl]; [assumption|].
  destruct (contains "Header" first); [|assumption].
  apply Forall_insert; [assumption|].
  inversion H as [|? ? Hfirst _]; subst.
  rewrite line_clean_app. apply andb_true_intro. split; [reflexivity|].
  apply line_clean_strip. now apply line_clean_replace_all_empty.
Qed.

Lemma mark_second_clean (lines : list string) :
  Forall (fun l => line_clean l = true) lines ->
  Forall (fun l => line_clean l = true) (mark_second lines).
Proof.
  intros H. unfold mark_second.
  destruct (2 <=? len lines); [|assumption].
  destruct (negb (endswith (nth 1 lines EmptyString) END_MARK)); [|assumption].
  apply Forall_insert; [assumption|].
  rewrite line_clean_app. apply andb_true_intro. split; [|reflexivity].
  apply line_clean_rstrip.
  destruct lines as [|a [|b t]]; try reflexivity.
  inversion H as [|? ? _ H']; subst. now inversion H'.
Qed.

Lemma parsed_lines_clean (content : string) :
  Forall (fun l => line_clean l = true) (parsed_lines content).
Proof.
  unfold parsed_lines. apply mark_second_clean, move_header_clean.
  apply splitlines_from_clean.
Qed.

Lemma move_header_length (lines : list string) :
  length (move_header lines) = length lines.
Proof.
  unfold move_header. destruct lines as [|first tl]; [reflexivity|].
  destruct (contains "Header" first); [apply length_insert|reflexivity].
Qed.

Lemma mark_second_length (lines : list string) :
  length (mark_second lines) = length lines.
Proof.
  unfold mark_second. destruct (2 <=? len lines); [|reflexivity].
  destruct (negb (endswith (nth 1 lines EmptyString) END_MARK));
    [apply length_insert|reflexivity].
Qed.

Lemma mark_second_marked (lines : list string) :
  2 <= len lines ->
  endswith (nth 1 (mark_second lines) EmptyString) END_MARK = true.
Proof.
  intros H. unfold mark_second.
  replace (2 <=? len lines) with true by (symmetry; now apply Z.leb_le).
  destruct (endswith (nth 1 lines EmptyString) END_MARK) eqn:E; cbn [negb];
    [exact E|].
  rewrite (nth_1_insert _ _ H). apply endswith_app.
Qed.

Lemma cons_char_length (c : ascii) (l : list string) :
  length (cons_char c l) = Nat.max 1 (length l).
Proof. destruct l; reflexivity. Qed.

Lemma clean_prefix_length (x d : string) : forall q,
  line_clean x = true -> x <> EmptyString ->
  length (splitlines_from q (x +:+ d))
  = Nat.max 1 (length (splitlines_from false d)).
Proof.
  induction x as [|c x IH]; intros q Hc Hne; [easy|].
  cbn [line_clean] in Hc. apply andb_prop in Hc as [Hc Hx].
  apply negb_true_iff in Hc. destruct (clean_not_LF_CR c Hc) as [HLF _].
  change (String c x +:+ d) with (String c (x +:+ d)).
  cbn [splitlines_from]. rewrite HLF, Hc. cbn [andb].
  rewrite cons_char_length.
  destruct x as [|c' x']; [reflexivity|].
  rewrite (IH false Hx) by discriminate. lia.
Qed.

Lemma startswith_split (old : string) : forall s,
  startswith s old = true -> s = old +:+ drop (String.length old) s.
Proof.
  induction old as [|a old IH]; intros s H; [reflexivity|].
  destruct s as [|b s]; [discriminate H|]. cbn [startswith] in H.
  apply andb_prop in H as [Hab Hs]. apply Ascii.eqb_eq in Hab. subst b.
  cbn [String.length drop]. change (String a old +:+ ?x) with (String a (old +:+ x)).
  f_equal. now apply IH.
Qed.

Lemma replace_first_eq (old new s : string) :
  replace_first old new s
  = if startswith s old then new +:+ drop (String.length old) s
    else match s with
         | EmptyString => EmptyString
         | String c s' => String c (replace_first old new s')
         end.
Proof. destruct s; reflexivity. Qed.

(** Replacing one clean, non-empty piece of text by another keeps the
    number of lines. *)
Lemma replace_first_lines (old new : string) :
  line_clean old = true -> old <> EmptyString ->
  line_clean new = true -> new <> EmptyString ->
  forall s q,
    length (splitlines_from q (replace_first old new s))
    = length (splitlines_from q s).
Proof.
  intros Ho Hone Hn Hnne. induction s as [|c s IH]; intros q;
    rewrite replace_first_eq.
  - destruct old; [easy|reflexivity].
  - destruct (startswith (String c s) old) eqn:E.
    + rewrite (startswith_split old _ E) at 2.
      now rewrite !clean_prefix_length.
    + cbn [splitlines_from].
      destruct (Ascii.eqb c LF && q); [apply IH|].
      destruct (is_linebreak c); [cbn [length]; now rewrite IH|].
      now rewrite !cons_char_length, IH.
Qed.

Lemma parsed_lines_length (content : string) :
  length (parsed_lines content) = length (text_lines content).
Proof.
  unfold parsed_lines. rewrite mark_second_length, move_header_length.
  unfold replace_bananas, text_lines, splitlines.
  destruct (contains "bananas" (universal_newlines content)); [|reflexivity].
  now apply replace_first_lines.
Qed.

(** X15: on an existing scratch file [text_parsing_demo] always returns
    and reads no key.  A file of at least one line keeps its number of
    lines, and when it has two or more the second line ends with the END
    mark afterwards; an empty file becomes a file of one empty line. *)
Theorem text_parsing_demo_keeps_line_count (w : world) (content : string) :
  fs w !! TMP_FILE = Some content ->
  exists w' lines',
    text_parsing_demo w = Ret tt w'
    /\ stdin w' = stdin w
    /\ file_lines TMP_FILE w' = Some lines'
    /\ (text_lines content <> [] ->
        lines' = parsed_lines content
        /\ length lines' = length (text_lines content))
    /\ (text_lines content = [] -> lines' = [EmptyString])
    /\ (2 <= len (text_lines content) ->
        endswith (nth 1 lines' EmptyString) END_MARK = true).
Proof.
  intros Hf. destruct (text_parsing_demo_eq w content Hf) as [w' [Hr [Hfs Hi]]].
  exists w', (text_lines (join nl (parsed_lines content) +:+ nl)).
  split; [exact Hr|]. split; [exact Hi|]. split.
  { unfold file_lines. now rewrite Hfs, lookup_insert_eq. }
  pose proof (parsed_lines_length content) as Hlen.
  assert (Hne : text_lines content <> [] ->
                text_lines (join nl (parsed_lines content) +:+ nl)
                = parsed_lines content).
  { intros H. apply text_lines_join; [|apply parsed_lines_clean].
    intros E. rewrite E in Hlen. destruct (text_lines content); [easy|discriminate]. }
  split; [|split].
  - intros H. rewrite (Hne H). now split.
  - intros H. rewrite H in Hlen.
    destruct (parsed_lines content); [reflexivity|discriminate].
  - intros H. rewrite Hne by (intros E; rewrite E in H; unfold len in H; cbn in H; lia).
    unfold parsed_lines. apply mark_second_marked.
    unfold len in *. rewrite move_header_length.
    unfold parsed_lines in Hlen.
    rewrite mark_second_length, move_header_length in Hlen. lia.
Qed.

Lemma text_parsing_demo_keeps_line_count_witness :
  exists w' lines',
    text_parsing_demo (world0 (keys_of "k") {[ TMP_FILE := three_lines ]}) = Ret tt w'
    /\ stdin w' = stdin (world0 (keys_of "k") {[ TMP_FILE := three_lines ]})
    /\ file_lines TMP_FILE w' = Some lines'
    /\ (text_lines three_lines <> [] ->
        lines' = parsed_lines three_lines
        /\ length lines' = length (text_lines three_lines))
    /\ (text_lines three_lines = [] -> lines' = [EmptyString])
    /\ (2 <= len (text_lines three_lines) ->
        endswith (nth 1 lines' EmptyString) END_MARK = true).
Proof.
  apply (text_parsing_demo_keeps_line_count
           (world0 (keys_of "k") {[ TMP_FILE := three_lines ]}) three_lines).
  reflexivity.
Defined.

(** ** The final line feed of the scratch file *)

Lemma ends_nl_insert (w w' : world) (x : string) :
  fs w' = <[TMP_FILE := x +:+ nl]> (fs w) -> ends_nl w'.
Proof.
  intros H. unfold ends_nl. rewrite H, lookup_insert_eq. apply endswith_app.
Qed.

Lemma ends_nl_same_fs (w w' : world) : fs w' = fs w -> ends_nl w -> ends_nl w'.
Proof. intros H. unfold ends_nl. now rewrite H. Qed.

Lemma prepend_prompt_loop_fs (fuel : nat) : forall w w',
  final_world (prepend_prompt_loop fuel w) = Some w' -> fs w' = fs w.
Proof.
  induction fuel as [|fuel IH]; intros w w' H; [discriminate H|].
  cbn [prepend_prompt_loop] in H. unfold bind at 1 in H. rewrite input_eq in H.
  destruct (read_line (stdin w)) as [answer rest|rest|];
    [|now inversion H|now inversion H].
  destruct (negb (nonempty (strip answer))); [now inversion H|].
  destruct (int (strip answer)); [now inversion H|].
  unfold bind at 1 in H. cbn [print print_end write] in H.
  now rewrite (IH _ _ H).
Qed.

(** X16: every function of the script that writes the scratch file leaves
    its text ending with a line feed.  [write_initial_file] and
    [append_text_to_file] do so whatever was there; the prepend step and
    the text parsing demo either rewrite the file that way or leave it as
    it was. *)
Theorem writers_end_file_with_newline :
  (forall w w', final_world (write_initial_file w) = Some w' -> ends_nl w')
  /\ (forall text w w',
        final_world (append_text_to_file text w) = Some w' -> ends_nl w')
  /\ (forall fuel w w',
        ends_nl w ->
        final_world (prepend_number_to_second_line fuel w) = Some w' -> ends_nl w')
  /\ (forall w w',
        ends_nl w -> final_world (text_parsing_demo w) = Some w' -> ends_nl w').
Proof.
  split; [|split; [|split]].
  - intros w w' H. inversion H; subst.
    unfold ends_nl. cbn [fs emit set_fs]. rewrite lookup_insert_eq.
    vm_compute. reflexivity.
  - intros text w w' H. rewrite append_text_to_file_eq in H. inversion H; subst.
    apply (ends_nl_insert w _ (default EmptyString (fs w !! TMP_FILE) +:+ text)).
    cbn [fs emit set_fs]. now rewrite append_assoc.
  - intros fuel w w' Hw H. unfold prepend_number_to_second_line in H.
    unfold bind at 1 in H.
    destruct (prepend_prompt_loop fuel w) as [r w1|e w1|] eqn:E;
      [|inversion H; subst|discriminate H].
    + assert (Hf1 : fs w1 = fs w)
        by (apply (prepend_prompt_loop_fs fuel); now rewrite E).
      destruct r as [num_str|]; [|inversion H; subst; now apply (ends_nl_same_fs w)].
      unfold bind at 1, read_text in H.
      destruct (fs w1 !! TMP_FILE) as [content|];
        [|inversion H; subst; now apply (ends_nl_same_fs w)].
      inversion H; subst. eapply (ends_nl_insert w1). reflexivity.
    + apply (ends_nl_same_fs w); [|assumption].
      apply (prepend_prompt_loop_fs fuel). now rewrite E.
  - intros w w' Hw H. destruct (fs w !! TMP_FILE) as [content|] eqn:Hf.
    + destruct (text_parsing_demo_eq w content Hf) as [w2 [Hr [Hfs _]]].
      rewrite Hr in H. inversion H; subst. now apply (ends_nl_insert w _ _ Hfs).
    + destruct (text_parsing_demo_missing w Hf) as [w2 [Hr Hfs]].
      rewrite Hr in H. inversion H; subst. now apply (ends_nl_same_fs w).
Qed.

Lemma writers_end_file_with_newline_witness :
  ends_nl (world_after (prepend_number_to_second_line 1)
             (world0 (keys_of "7" ++ [LF]) two_lines_terminated)).
Proof.
  apply (proj1 (proj2 (proj2 writers_end_file_with_newline)) 1%nat
           (world0 (keys_of "7" ++ [LF]) two_lines_terminated)).
  - vm_compute. reflexivity.
  - vm_compute. reflexivity.
Defined.

(** * The raw read and the platform *)

Lemma get_single_key_on_eq (restore : tc_when -> termios_attr -> M unit)
    (w : world) :
  get_single_key_on restore w
  = match restore TCSADRAIN (tty_attr w) (before_restore w) with
    | Ret _ w2 => key_outcome w w2
    | Raise e w2 => Raise e w2
    | OutOfFuel => OutOfFuel
    end.
Proof.
  destruct (stdin w) as [|c rest] eqn:E.
  - assert (Hb : before_restore w = raw_entered w).
    { unfold before_restore. rewrite E. destruct w; cbn in *; now subst. }
    rewrite Hb.
    unfold get_single_key_on, key_outcome, raw_entered, bind, try_finally,
      tcgetattr, tty_setraw, stdin_read1, tcsetattr, bind.
    simpl. rewrite E. simpl.
    destruct (restore TCSADRAIN (tty_attr w)
                (set_tty (tty_raw w (tty_attr w)) TCSAFLUSH w)) as [[] ?|?|];
      reflexivity.
  - unfold get_single_key_on, key_outcome, before_restore, raw_entered, bind,
      try_finally, tcgetattr, tty_setraw, stdin_read1, tcsetattr, bind.
    simpl. rewrite E. simpl. unfold raise, ret.
    destruct (ord c =? 3);
      destruct (restore TCSADRAIN (tty_attr w)
                  (set_stdin rest (set_tty (tty_raw w (tty_attr w)) TCSAFLUSH w)))
        as [[] ?|?|]; reflexivity.
Qed.

(** C9, amended: what [get_single_key] gives depends on the restoring
    [tcsetattr] of its [finally] clause.  When that call succeeds, an empty
    read gives the empty string and 0, a character [c] other than Ctrl-C
    gives [c] and its code, and Ctrl-C (code 3), and only it, gives
    KeyboardInterrupt.  When the call raises, its exception replaces all of
    these: on a terminal that has hung up, which is when a terminal read is
    empty, the call ends in termios.error and not in the empty pair. *)
Theorem get_single_key_decodes
    (restore : tc_when -> termios_attr -> M unit) (w : world) :
  (forall w2,
      restore TCSADRAIN (tty_attr w) (before_restore w) = Ret tt w2 ->
      (stdin w = [] -> get_single_key_on restore w = Ret (EmptyString, 0) w2)
      /\ (forall c rest, stdin w = c :: rest -> ord c <> 3 ->
            get_single_key_on restore w = Ret (String c EmptyString, ord c) w2)
      /\ (forall c rest, stdin w = c :: rest -> ord c = 3 ->
            get_single_key_on restore w = Raise KeyboardInterrupt w2))
  /\ (forall e w2,
      restore TCSADRAIN (tty_attr w) (before_restore w) = Raise e w2 ->
      get_single_key_on restore w = Raise e w2)
  /\ get_single_key w = key_outcome w (after_key w)
  /\ (forall c rest, stdin w = c :: rest ->
        (exists w', get_single_key w = Raise KeyboardInterrupt w') <-> ord c = 3)
  /\ get_single_key_on tcsetattr_refused w = Raise TermiosError (before_restore w).
Proof.
  split; [|split; [|split; [|split]]].
  - intros w2 Hr. rewrite get_single_key_on_eq, Hr. unfold key_outcome.
    split; [now intros ->|]. split; intros c rest -> Hc.
    + apply Z.eqb_neq in Hc. now rewrite Hc.
    + apply Z.eqb_eq in Hc. now rewrite Hc.
  - intros e w2 Hr. now rewrite get_single_key_on_eq, Hr.
  - unfold get_single_key. now rewrite get_single_key_on_eq.
  - intros c rest Hs. rewrite get_single_key_eq. unfold key_result. rewrite Hs.
    destruct (Z.eqb_spec (ord c) 3) as [Hc|Hc]; split; try easy.
    + eauto.
    + intros [w' Hw']. discriminate Hw'.
  - now rewrite get_single_key_on_eq.
Qed.

Lemma get_single_key_decodes_witness :
  get_single_key_on tcsetattr (world0 (keys_of "q") ∅)
  = Ret ("q", ord "q") (after_key (world0 (keys_of "q") ∅)).
Proof.
  apply (proj1 (proj2 (proj1 (get_single_key_decodes tcsetattr
                                (world0 (keys_of "q") ∅))
                         (after_key (world0 (keys_of "q") ∅)) eq_refl))
           "q"%char []).
  - reflexivity.
  - vm_compute. discriminate.
Defined.

(** C9 as stated fails at the end of the input of a terminal that has
    hung up: the read is empty, the restoring call is refused, and the
    function raises termios.error where the empty pair was to be
    returned. *)
Lemma get_single_key_hangup_raises :
  raises (get_single_key_on tcsetattr_refused (world0 [] ∅)) TermiosError
  /\ stdin_after (get_single_key_on tcsetattr_refused (world0 [] ∅)) = Some [].
Proof. vm_compute. split; reflexivity. Qed.

(** * Errors inside a step *)








(** * The interrupt in the steps *)

Lemma ie_same_stdin {A} (m : M A) :
  (forall w w', final_world (m w) = Some w' -> stdin w' = stdin w) ->
  interrupt_escapes m.
Proof.
  intros Hm w w' H. exists []. rewrite (Hm w w' H).
  split; [reflexivity|right; intros []].
Qed.

Lemma ie_ret {A} (a : A) : interrupt_escapes (ret a).
Proof. apply ie_same_stdin. intros w w' H. now inversion H. Qed.

Lemma ie_raise {A} (e : exn) : interrupt_escapes (@raise A e).
Proof. apply ie_same_stdin. intros w w' H. now inversion H. Qed.

Lemma ie_bind {A B} (m : M A) (k : A -> M B) :
  interrupt_escapes m -> (forall a, interrupt_escapes (k a)) ->
  interrupt_escapes (bind m k).
Proof.
  intros Hm Hk w w' H. unfold bind in *.
  specialize (Hm w). destruct (m w) as [a w1|e w1|]; [| |discriminate H].
  - destruct (Hm w1 eq_refl) as [u1 [Hu1 [[]|Hd1]]].
    destruct (Hk a w1 w' H) as [u2 [Hu2 Hd2]].
    exists (u1 ++ u2). split; [rewrite <- app_assoc, <- Hu2; exact Hu1|].
    destruct Hd2 as [Hd2|Hd2]; [now left|right].
    rewrite in_app_iff. tauto.
  - apply Hm. exact H.
Qed.

(** A handler that does not take KeyboardInterrupt lets it pass. *)
Lemma ie_try_except {A} (m : M A) (h : exn -> option (M A)) :
  interrupt_escapes m -> h KeyboardInterrupt = None ->
  (forall e k, h e = Some k -> interrupt_escapes k) ->
  interrupt_escapes (try_except m h).
Proof.
  intros Hm Hn Hh w w' H. unfold try_except in *.
  specialize (Hm w). destruct (m w) as [a w1|e w1|]; [now apply Hm| |discriminate H].
  destruct (h e) as [k|] eqn:Ek; [|now apply Hm].
  destruct (Hm w1 eq_refl) as [u1 [Hu1 [He|Hd1]]].
  { cbn [raises] in He. subst e. rewrite Hn in Ek. discriminate Ek. }
  destruct (Hh e k Ek w1 w' H) as [u2 [Hu2 Hd2]].
  exists (u1 ++ u2). split; [rewrite <- app_assoc, <- Hu2; exact Hu1|].
  destruct Hd2 as [Hd2|Hd2]; [now left|right].
  rewrite in_app_iff. tauto.
Qed.

(** A handler that takes KeyboardInterrupt only to raise it again. *)
Lemma ie_try_except_reraise {A} (m k : M A) :
  interrupt_escapes m ->
  (forall w, exists w', k w = Raise KeyboardInterrupt w' /\ stdin w' = stdin w) ->
  interrupt_escapes (try_except m (on_KeyboardInterrupt k)).
Proof.
  intros Hm Hk w w' H. unfold try_except in *.
  specialize (Hm w). destruct (m w) as [a w1|e w1|]; [now apply Hm| |discriminate H].
  destruct (Hm w1 eq_refl) as [u1 [Hu1 Hd1]].
  destruct e; cbn [on_KeyboardInterrupt] in *; try (now apply Hm).
  destruct (Hk w1) as [w2 [Hk2 Hs2]]. rewrite Hk2 in *.
  inversion H; subst w'. exists u1. split; [now rewrite Hs2|now left].
Qed.

Lemma ie_for_each {A} (l : list A) (f : A -> M unit) :
  (forall x, interrupt_escapes (f x)) -> interrupt_escapes (for_each l f).
Proof.
  intros Hf. induction l as [|x l IH]; cbn [for_each];
    [apply ie_ret|apply ie_bind; auto].
Qed.

Ltac ie_prim :=
  let H := fresh in
  apply ie_same_stdin;
  intros ? ? H; cbv beta delta [write print print_end clear_screen bind
    path_exists read_text write_text append_write unlink run_shell
    get_GLOBAL_VAR ret raise] in H;
  repeat case_match; cbn [final_world] in *; simplify_eq; reflexivity.

Lemma ie_write s : interrupt_escapes (write s).
Proof. ie_prim. Qed.

Lemma ie_print s : interrupt_escapes (print s).
Proof. ie_prim. Qed.

Lemma ie_print_end s e : interrupt_escapes (print_end s e).
Proof. ie_prim. Qed.

Lemma ie_clear_screen : interrupt_escapes clear_screen.
Proof. ie_prim. Qed.

Lemma ie_path_exists p : interrupt_escapes (path_exists p).
Proof. ie_prim. Qed.

Lemma ie_read_text p : interrupt_escapes (read_text p).
Proof. ie_prim. Qed.

Lemma ie_write_text p s : interrupt_escapes (write_text p s).
Proof. ie_prim. Qed.

Lemma ie_append_write p s : interrupt_escapes (append_write p s).
Proof. ie_prim. Qed.

Lemma ie_unlink p : interrupt_escapes (unlink p).
Proof. ie_prim. Qed.

Lemma ie_run_shell cmd : interrupt_escapes (run_shell cmd).
Proof. ie_prim. Qed.

Lemma ie_get_GLOBAL_VAR : interrupt_escapes get_GLOBAL_VAR.
Proof. ie_prim. Qed.

(** The raw read takes one key and raises when that key is Ctrl-C. *)
Lemma ie_get_single_key : interrupt_escapes get_single_key.
Proof.
  intros w w' H. rewrite get_single_key_eq in *. unfold key_result in *.
  destruct (stdin w) as [|c rest] eqn:E.
  - inversion H; subst w'. exists []. rewrite after_key_stdin, E.
    split; [reflexivity|right; intros []].
  - exists [c]. destruct (Z.eqb_spec (ord c) 3) as [Hc|Hc];
      inversion H; subst w'; rewrite after_key_stdin, E;
      (split; [reflexivity|]); [now left|right].
    intros [->|[]]. now apply Hc.
Qed.

(** What a read of one line takes from the input. *)
Lemma read_line_consumed (cs : list ascii) :
  match read_line cs with
  | Line _ rest => exists used, cs = used ++ rest /\ ~ In CTRL_C used
  | Interrupted rest => exists used, cs = used ++ rest
  | AtEof => cs = []
  end.
Proof.
  induction cs as [|c cs IH]; cbn [read_line]; [reflexivity|].
  destruct (Ascii.eqb_spec c LF) as [->|Hlf].
  { exists [LF]. split; [reflexivity|]. intros [H|[]]. discriminate H. }
  destruct (Ascii.eqb_spec c CTRL_C) as [->|Hcc].
  { now exists [CTRL_C]. }
  destruct (read_line cs) as [s r|r|].
  - destruct IH as [u [-> Hu]]. exists (c :: u). split; [reflexivity|].
    intros [H|H]; [now apply Hcc|now apply Hu].
  - destruct IH as [u ->]. now exists (c :: u).
  - subst cs. exists [c]. split; [reflexivity|].
    intros [H|[]]. now apply Hcc.
Qed.

(** A line read raises when the line is cut by Ctrl-C. *)
Lemma ie_input prompt : interrupt_escapes (input prompt).
Proof.
  intros w w' H. rewrite input_eq in *.
  pose proof (read_line_consumed (stdin w)) as Hr.
  destruct (read_line (stdin w)) as [s r|r|]; inversion H; subst w'; cbn [stdin emit set_stdin].
  - destruct Hr as [u [Hu Hn]]. exists u. split; [exact Hu|now right].
  - destruct Hr as [u Hu]. exists u. split; [exact Hu|now left].
  - exists []. split; [reflexivity|right; intros []].
Qed.

Create HintDb interrupt.

#[local] Hint Resolve ie_ret ie_raise ie_write ie_print ie_print_end
  ie_clear_screen ie_input ie_path_exists ie_read_text ie_write_text
  ie_append_write ie_unlink ie_run_shell ie_get_GLOBAL_VAR
  ie_get_single_key : interrupt.

Ltac ie_step :=
  match goal with
  | |- interrupt_escapes (bind _ _) => apply ie_bind; [|intros ?]
  | |- interrupt_escapes (try_except _ _) =>
      let Hh := fresh in
      apply ie_try_except;
      [|reflexivity
       |intros [] ? Hh; cbn [on_Exception] in Hh; simplify_eq]
  | |- interrupt_escapes (for_each _ _) => apply ie_for_each; intros ?
  | |- interrupt_escapes (if ?b then _ else _) => destruct b
  | |- interrupt_escapes (match ?x with _ => _ end) => destruct x
  | |- interrupt_escapes _ => solve [eauto with interrupt]
  end.

Ltac ie_auto := repeat ie_step.

(** The pause passes the interrupt on: its handler prints a newline and
    raises again. *)
Lemma ie_press_any_key message : interrupt_escapes (press_any_key message).
Proof.
  unfold press_any_key.
  apply ie_bind; [apply ie_print_end|intros _].
  apply ie_bind; [|intros _; apply ie_print].
  apply ie_try_except_reraise; [ie_auto|].
  intros w. eexists. split; reflexivity.
Qed.

#[local] Hint Resolve ie_press_any_key : interrupt.

Lemma ie_press_any_key_default : interrupt_escapes press_any_key_default.
Proof. apply ie_press_any_key. Qed.

Lemma ie_display_demo k p c wo cb : interrupt_escapes (display_demo k p c wo cb).
Proof. unfold display_demo. ie_auto. Qed.

Lemma ie_write_initial_file : interrupt_escapes write_initial_file.
Proof. unfold write_initial_file. ie_auto. Qed.

#[local] Hint Resolve ie_press_any_key_default ie_display_demo
  ie_write_initial_file : interrupt.

Lemma ie_menu_loop fuel items mx : interrupt_escapes (menu_loop fuel items mx).
Proof.
  induction fuel as [|fuel IH]; cbn [menu_loop]; [intros w w' H; discriminate H|].
  unfold reprompt_menu. ie_auto.
Qed.

#[local] Hint Resolve ie_menu_loop : interrupt.

Lemma ie_menu_from_file fuel : interrupt_escapes (menu_from_file fuel).
Proof. unfold menu_from_file. ie_auto. Qed.

Lemma ie_run_bash_command cmd : interrupt_escapes (run_bash_command cmd).
Proof. unfold run_bash_command. ie_auto. Qed.

Lemma ie_capture_bash_output cmd : interrupt_escapes (capture_bash_output cmd).
Proof.
  unfold capture_bash_output, check_output.
  apply ie_try_except; [ie_auto|reflexivity|].
  intros [] k Hk; simplify_eq. ie_auto.
Qed.

Lemma ie_demonstrate_data_types : interrupt_escapes demonstrate_data_types.
Proof. unfold demonstrate_data_types. ie_auto. Qed.

Lemma ie_demonstrate_scope : interrupt_escapes demonstrate_scope.
Proof.
  unfold demonstrate_scope. cbv zeta. ie_auto.
  apply ie_same_stdin. intros w w' H. now inversion H.
Qed.

Lemma ie_demonstrate_functions : interrupt_escapes demonstrate_functions.
Proof. unfold demonstrate_functions. ie_auto. Qed.

Lemma ie_conditional_example v : interrupt_escapes (conditional_example v).
Proof. unfold conditional_example. ie_auto. Qed.

Lemma ie_demonstrate_imports : interrupt_escapes demonstrate_imports.
Proof.
  unfold demonstrate_imports. ie_auto.
  apply ie_same_stdin. intros w w' H. destruct (HAS_REQUESTS w); now inversion H.
Qed.

#[local] Hint Resolve ie_menu_from_file ie_run_bash_command
  ie_capture_bash_output ie_demonstrate_data_types ie_demonstrate_scope
  ie_demonstrate_functions ie_conditional_example ie_demonstrate_imports
  : interrupt.

Lemma ie_marker_file_demo : interrupt_escapes marker_file_demo.
Proof. unfold marker_file_demo. ie_auto. Qed.

Lemma ie_text_parsing_demo : interrupt_escapes text_parsing_demo.
Proof. unfold text_parsing_demo, suffix_second_line. ie_auto. Qed.

(** The integer prompt of the conditional block handles Exception, which
    KeyboardInterrupt is not. *)
Lemma ie_conditional_input : interrupt_escapes conditional_input.
Proof. unfold conditional_input. ie_auto. Qed.

#[local] Hint Resolve ie_marker_file_demo ie_text_parsing_demo
  ie_conditional_input : interrupt.







(** * The pause, the menu's other keys, captured output and the cleanup *)

(** X2: with a key waiting, [press_any_key] writes the message, takes
    exactly that one key and writes a newline, changing no file and
    leaving the terminal settings as they were.  It returns unless the key
    is Ctrl-C; then the newline is still written and KeyboardInterrupt goes
    on to the caller. *)
Theorem press_any_key_takes_one_key (message : string) (w : world) (c : ascii)
    (rest : list ascii) :
  stdin w = c :: rest ->
  exists w',
    press_any_key message w
    = (if ord c =? 3 then Raise KeyboardInterrupt w' else Ret tt w')
    /\ stdin w' = rest
    /\ stdout w' = stdout w ++ [Write message; Write nl]
    /\ fs w' = fs w
    /\ tty_attr w' = tty_attr w.
Proof.
  intros Hs.
  exists (emit (Write nl) (after_key (emit (Write (message +:+ EmptyString)) w))).
  split; [|split; [|split; [|split; reflexivity]]].
  - unfold press_any_key, try_except.
    unfold bind at 1. cbn [print_end write]. unfold bind at 1, bind at 1.
    rewrite get_single_key_eq. unfold key_result. cbn [stdin emit].
    rewrite Hs. destruct (ord c =? 3); reflexivity.
  - cbn [stdin emit]. rewrite after_key_stdin. cbn [stdin emit]. now rewrite Hs.
  - cbn [stdout emit]. rewrite after_key_stdout. cbn [stdout emit].
    now rewrite append_empty_r, <- app_assoc.
Qed.

Lemma press_any_key_takes_one_key_witness :
  exists w',
    press_any_key "Go on?" (world0 (keys_of "qz") ∅)
    = (if ord "q" =? 3 then Raise KeyboardInterrupt w' else Ret tt w')
    /\ stdin w' = keys_of "z"
    /\ stdout w' = stdout (world0 (keys_of "qz") ∅) ++ [Write "Go on?"; Write nl]
    /\ fs w' = fs (world0 (keys_of "qz") ∅)
    /\ tty_attr w' = tty_attr (world0 (keys_of "qz") ∅).
Proof.
  apply (press_any_key_takes_one_key "Go on?" (world0 (keys_of "qz") ∅)
           "q"%char (keys_of "z")).
  reflexivity.
Defined.

(** X9: the keys the menu answers with its prompt and one more read are
    those that are neither Ctrl-C nor Escape and that either are no digit
    for [str.isdigit] or are a decimal digit 0 to 9 outside the range on
    offer (the superscript digits are neither: they make [int] fail).  A
    run of such keys is answered key by key with the prompt, changes no
    file, and leaves the loop waiting for the key that follows the run. *)
Theorem menu_from_file_ignored_keys (w : world) (content : string)
    (pre tail : list ascii) (fuel : nat) :
  fs w !! TMP_FILE = Some content ->
  menu_items content <> [] ->
  let items := menu_items content in
  let mx := Z.min 9 (len items) in
  Forall (fun c => menu_ignored mx c = true) pre ->
  stdin w = pre ++ tail ->
  exists v1,
    menu_from_file (length pre + fuel) w = menu_loop fuel items mx v1
    /\ stdin v1 = tail
    /\ stdout v1 = stdout (menu_shown items w)
                   ++ replicate (length pre) menu_reprompt
    /\ fs v1 = fs w.
Proof.
  intros Hf Hne items mx Hpre Hin.
  destruct (menu_loop_ignored_run items mx pre fuel (menu_shown items w) tail Hpre)
    as [v1 [Hrun [Hs [Ho Hfs]]]].
  { unfold menu_shown. now rewrite emits_stdin. }
  exists v1. rewrite (menu_from_file_eq _ _ _ Hf Hne).
  split; [exact Hrun|]. split; [assumption|]. split; [assumption|].
  rewrite Hfs. apply emits_fs.
Qed.

Lemma menu_from_file_ignored_keys_witness :
  let w := world0 (keys_of "x0 72") five_items in
  let items := menu_items five_lines in
  let mx := Z.min 9 (len items) in
  exists v1,
    menu_from_file (length (keys_of "x0 7") + 1) w = menu_loop 1 items mx v1
    /\ stdin v1 = keys_of "2"
    /\ stdout v1 = stdout (menu_shown items w)
                   ++ replicate (length (keys_of "x0 7")) menu_reprompt
    /\ fs v1 = fs w.
Proof.
  intros w.
  apply (menu_from_file_ignored_keys w five_lines (keys_of "x0 7") (keys_of "2") 1%nat).
  - reflexivity.
  - vm_compute. discriminate.
  - repeat constructor.
  - reflexivity.
Defined.



(** X14: in the cleanup block, with an answer and one more key waiting,
    the answer y removes both scratch files, each only if it is there, so
    the block does not fail on a missing file; afterwards neither file
    exists and every other file is as before.  The answer n (or N, or
    Escape) leaves all files as they are.  In both cases the block then
    pauses on the next key; it returns when that key is not Ctrl-C and
    raises KeyboardInterrupt when it is, the files being removed or kept
    as said either way. *)
Theorem cleanup_action_removes_files (fuel : nat) (w : world) (k c2 : ascii)
    (rest : list ascii) :
  stdin w = k :: c2 :: rest ->
  accepting k = true ->
  exists w',
    cleanup_action (S fuel) w
    = (if ord c2 =? 3 then Raise KeyboardInterrupt w' else Ret tt w')
    /\ stdin w' = rest
    /\ (key_yes k = true ->
        fs w' = delete MARKER_FILE (delete TMP_FILE (fs w))
        /\ fs w' !! TMP_FILE = None /\ fs w' !! MARKER_FILE = None)
    /\ (key_yes k = false -> fs w' = fs w).
Proof.
  intros Hs Hk.
  set (w0 := emit (echo k) (after_key (emit (Write cleanup_question) w))).
  assert (Hs0 : stdin w0 = c2 :: rest).
  { unfold w0. cbn [stdin emit]. rewrite after_key_stdin. cbn [stdin emit].
    now rewrite Hs. }
  assert (Hask : ask_yes_no (S fuel) cleanup_question w = Ret (key_yes k) w0).
  { rewrite ask_yes_no_eq, (ask_yes_no_loop_key _ _ k (c2 :: rest)) by exact Hs.
    rewrite (accepting_not_interrupt k Hk). unfold accepting in Hk.
    destruct (key_yes k); [reflexivity|]. cbn [orb] in Hk. now rewrite Hk. }
  destruct (key_yes k) eqn:Hy.
  - destruct (unlink_if_exists_eq TMP_FILE w0) as [w1 [H1 [Hf1 [Hi1 Ho1]]]].
    destruct (unlink_if_exists_eq MARKER_FILE w1) as [w2 [H2 [Hf2 [Hi2 Ho2]]]].
    set (w3 := pause_world (emit (Write ("Result: Example files removed." +:+ nl)) w2)).
    assert (Hrun : cleanup_action (S fuel) w
                   = (if ord c2 =? 3 then Raise KeyboardInterrupt w3
                      else Ret tt w3)).
    { unfold cleanup_action. fold cleanup_question.
      rewrite (bind_Ret _ _ _ _ _ Hask).
      rewrite (bind_Ret _ _ _ _ _ H1), (bind_Ret _ _ _ _ _ H2).
      erewrite bind_Ret by reflexivity. rewrite press_any_key_default_eq.
      cbn [stdin emit]. now rewrite Hi2, Hi1, Hs0. }
    assert (Hf3 : fs w3 = delete MARKER_FILE (delete TMP_FILE (fs w))).
    { unfold w3, pause_world. cbn [fs emit]. rewrite after_key_fs. cbn [fs emit].
      rewrite Hf2, Hf1. unfold w0. cbn [fs emit]. now rewrite after_key_fs. }
    exists w3. split; [exact Hrun|]. split; [|split; [|discriminate]].
    + unfold w3. rewrite pause_world_stdin. cbn [stdin emit].
      now rewrite Hi2, Hi1, Hs0.
    + intros _. split; [exact Hf3|]. rewrite Hf3. split.
      * rewrite lookup_delete_ne by discriminate. apply lookup_delete_eq.
      * apply lookup_delete_eq.
  - set (w3 := pause_world
                 (emit (Write (("Result: Files left in place: " +:+ TMP_FILE
                                +:+ ", " +:+ MARKER_FILE) +:+ nl)) w0)).
    assert (Hrun : cleanup_action (S fuel) w
                   = (if ord c2 =? 3 then Raise KeyboardInterrupt w3
                      else Ret tt w3)).
    { unfold cleanup_action. fold cleanup_question.
      rewrite (bind_Ret _ _ _ _ _ Hask).
      erewrite bind_Ret by reflexivity. rewrite press_any_key_default_eq.
      cbn [stdin emit]. now rewrite Hs0. }
    exists w3. split; [exact Hrun|]. split; [|split; [discriminate|]].
    + unfold w3. rewrite pause_world_stdin. cbn [stdin emit]. now rewrite Hs0.
    + intros _. unfold w3, pause_world, w0. cbn [fs emit].
      rewrite !after_key_fs. reflexivity.
Qed.

Lemma cleanup_action_removes_files_witness :
  exists w',
    cleanup_action 1 (world0 (keys_of "yz") second_line_abc)
    = (if ord "z" =? 3 then Raise KeyboardInterrupt w' else Ret tt w')
    /\ stdin w' = []
    /\ (key_yes "y" = true ->
        fs w' = delete MARKER_FILE (delete TMP_FILE
                  (fs (world0 (keys_of "yz") second_line_abc)))
        /\ fs w' !! TMP_FILE = None /\ fs w' !! MARKER_FILE = None)
    /\ (key_yes "y" = false -> fs w' = fs (world0 (keys_of "yz") second_line_abc)).
Proof.
  apply (cleanup_action_removes_files 0 (world0 (keys_of "yz") second_line_abc)
           "y"%char "z"%char []).
  - reflexivity.
  - reflexivity.
Defined.
